(** * limen-sdk: a shallow embedding of the client and its verified contract

    The development follows the TypeScript sources:
    - [types.ts]   the transport, token-store and option types;
    - [auth.ts]    challenge / exchange authentication, secret-key normalisation;
    - [client.ts]  [LimenClient]: token handling, [authorizedFetch], [getHistory],
                   [requestSignal];
    - the payment module: the keypair payment client and its remediate-then-retry
                   wrapper.

    Asynchronous code is written in a state-and-exception monad: a [throw]
    keeps every mutation made before it, as a rejected promise does.  External
    collaborators (the transport, the chain connection, bs58, tweetnacl, the
    x402 client) are interfaces; every invocation of a transport is recorded in
    a ghost trace so that "no network call" and "exactly one retry" can be
    stated. *)

From Stdlib Require Import String Ascii List ZArith Bool Lia DecimalString.
Import ListNotations.
Open Scope list_scope.
Open Scope string_scope.

Set Warnings "-register-all".

(** ** JavaScript values *)

(** The JSON-shaped fragment of JavaScript values the SDK handles.  Numeric
    leaves are integers: the SDK compares them and prints them, it never
    computes with them. *)
Inductive JsValue : Type :=
| JUndefined
| JNull
| JBool (b : bool)
| JNum (n : Z)
| JStr (s : string)
| JArr (elems : list JsValue)
| JObj (fields : list (string * JsValue)).

(** [String(n)] for an integral number: plain decimal, as JavaScript prints
    an integer below 1e21 in magnitude (from there on it uses exponent form,
    which is not modelled). *)
Definition String_number (n : Z) : string := NilZero.string_of_int (Z.to_int n).

(** [s.join(sep)] on already rendered pieces. *)
Fixpoint join (sep : string) (parts : list string) : string :=
  match parts with
  | [] => ""
  | [p] => p
  | p :: rest => p ++ sep ++ join sep rest
  end.

(** ToBoolean: [!v] is [negb (truthy v)]. *)
Definition truthy (v : JsValue) : bool :=
  match v with
  | JUndefined | JNull => false
  | JBool b => b
  | JNum n => negb (n =? 0)%Z
  | JStr s => negb (s =? "")
  | JArr _ | JObj _ => true
  end.

(** ToString, as a template literal or [new Error(v)] applies it. *)
Fixpoint String_ (v : JsValue) : string :=
  match v with
  | JUndefined => "undefined"
  | JNull => "null"
  | JBool true => "true"
  | JBool false => "false"
  | JNum n => String_number n
  | JStr s => s
  | JArr elems =>
      join "," (map (fun x => match x with
                              | JUndefined | JNull => ""
                              | _ => String_ x
                              end) elems)
  | JObj _ => "[object Object]"
  end.

(** [a ?? b]. *)
Definition nullish (v : JsValue) : bool :=
  match v with JUndefined | JNull => true | _ => false end.

Definition coalesce (a b : JsValue) : JsValue := if nullish a then b else a.

(** [Array.isArray]. *)
Definition isArray (v : JsValue) : bool :=
  match v with JArr _ => true | _ => false end.

(** Own data property of an object literal; the first binding is the live one. *)
Fixpoint lookup (name : string) (fields : list (string * JsValue)) : JsValue :=
  match fields with
  | [] => JUndefined
  | (k, v) :: rest => if k =? name then v else lookup name rest
  end.

(** ** JSON.stringify *)

Definition hex_digit_lower (n : N) : ascii :=
  ascii_of_N (if (n <? 10)%N then 48 + n else 87 + n).

Definition hex_digit_upper (n : N) : ascii :=
  ascii_of_N (if (n <? 10)%N then 48 + n else 55 + n).

(** QuoteJSONString, one code unit at a time. *)
Definition JSON_escape (c : ascii) : string :=
  let n := N_of_ascii c in
  if (n =? 34)%N then String "\" (String (ascii_of_N 34) "")
  else if (n =? 92)%N then "\\"
  else if (n =? 8)%N then "\b"
  else if (n =? 12)%N then "\f"
  else if (n =? 10)%N then "\n"
  else if (n =? 13)%N then "\r"
  else if (n =? 9)%N then "\t"
  else if (n <? 32)%N then
    "\u00" ++ String (hex_digit_lower (n / 16)) (String (hex_digit_lower (n mod 16)) "")
  else String c "".

Fixpoint JSON_escape_all (s : string) : string :=
  match s with
  | EmptyString => ""
  | String c rest => JSON_escape c ++ JSON_escape_all rest
  end.

Definition dquote : string := String (ascii_of_N 34) "".

Definition JSON_quote (s : string) : string := dquote ++ JSON_escape_all s ++ dquote.

(** [JSON.stringify v]; [None] stands for the [undefined] result. *)
Fixpoint JSON_stringify (v : JsValue) : option string :=
  match v with
  | JUndefined => None
  | JNull => Some "null"
  | JBool true => Some "true"
  | JBool false => Some "false"
  | JNum n => Some (String_number n)
  | JStr s => Some (JSON_quote s)
  | JArr elems =>
      Some ("[" ++ join "," (map (fun x => match JSON_stringify x with
                                           | Some s => s
                                           | None => "null"
                                           end) elems) ++ "]")
  | JObj fields =>
      Some ("{" ++ join "," (flat_map (fun kv =>
                               match kv with
                               | (k, x) => match JSON_stringify x with
                                           | Some s => [JSON_quote k ++ ":" ++ s]
                                           | None => []
                                           end
                               end) fields) ++ "}")
  end.

(** The text of [JSON.stringify] applied to an object literal. *)
Definition JSON_stringify_object (fields : list (string * JsValue)) : string :=
  match JSON_stringify (JObj fields) with
  | Some s => s
  | None => ""
  end.

(** ** Promises: state plus exceptions *)

(** A thrown value: an [Error] instance with its message, or anything else,
    kept by its [String(err)] rendering. *)
Inductive Thrown : Type :=
| ErrorObj (message : string)
| NonError (rendered : string).

Inductive Outcome (A : Type) : Type :=
| Returns (a : A)
| Throws (e : Thrown).

Arguments Returns {A} a.
Arguments Throws {A} e.

(** An awaited computation over a state [S]: a throw does not roll [S] back. *)
Definition Async (S A : Type) : Type := S -> Outcome A * S.

Definition ret {S A : Type} (a : A) : Async S A := fun s => (Returns a, s).

Definition throw {S A : Type} (e : Thrown) : Async S A := fun s => (Throws e, s).

Definition settle {S A : Type} (o : Outcome A) : Async S A := fun s => (o, s).

Definition bind {S A B : Type} (m : Async S A) (k : A -> Async S B) : Async S B :=
  fun s =>
    match m s with
    | (Returns a, s') => k a s'
    | (Throws e, s') => (Throws e, s')
    end.

Definition try_catch {S A : Type} (m : Async S A) (handler : Thrown -> Async S A)
  : Async S A :=
  fun s =>
    match m s with
    | (Returns a, s') => (Returns a, s')
    | (Throws e, s') => handler e s'
    end.

Declare Scope async_scope.
Delimit Scope async_scope with async.
Notation "x <- m ;; k" := (bind m (fun x => k))
  (at level 61, m at next level, right associativity) : async_scope.
Notation "m ;;; k" := (bind m (fun _ => k))
  (at level 61, right associativity) : async_scope.
Open Scope async_scope.

(** ** The transport contract ([types.ts]) *)

Record RequestLike : Type := mkRequest {
  method : option string;
  headers : option (list (string * string));
  body : option string;
}.

(** [status], [json()] and [text()]; [ok] and [headers] are never read. *)
Record ResponseLike : Type := mkResponse {
  status : Z;
  json : Outcome JsValue;
  text : Outcome string;
}.

(** [FetchLike] over the state [E] of whatever stands behind the transport.
    An omitted [init] is the all-absent record. *)
Definition FetchLike (E : Type) : Type := string -> RequestLike -> Async E ResponseLike.

Record PaymentClient (E : Type) : Type := mkPaymentClient {
  pay_fetch : FetchLike E;
}.

Arguments pay_fetch {E} _.
Arguments mkPaymentClient {E} _.

(** Property read [v.name], for the names the SDK reads ([token], [error],
    [challenge], [history], ...), which no built-in prototype defines. *)
Definition getProp (v : JsValue) (name : string) : Outcome JsValue :=
  match v with
  | JUndefined =>
      Throws (ErrorObj ("Cannot read properties of undefined (reading '" ++ name ++ "')"))
  | JNull =>
      Throws (ErrorObj ("Cannot read properties of null (reading '" ++ name ++ "')"))
  | JObj fields => Returns (lookup name fields)
  | JBool _ | JNum _ | JStr _ | JArr _ => Returns JUndefined
  end.

(** ** The world a client runs in *)

(** Which capability carried a request: the plain transport ([fetchFn],
    [resolvedFetch]) or [paymentClient.fetch]. *)
Inductive Via : Type := Plain | Paid.

(** One invocation of a transport, with what it answered. *)
Record NetCall : Type := mkCall {
  via : Via;
  url : string;
  init : RequestLike;
  answer : Outcome ResponseLike;
}.

(** [store] is the slot of the token store ([string | null] for TypeScript; at
    run time whatever [setToken] was handed, [JNull] when absent), [env] the
    state behind the transports, [trace] the ghost log of transport calls. *)
Record World (E : Type) : Type := mkWorld {
  store : JsValue;
  env : E;
  trace : list NetCall;
}.

Arguments mkWorld {E} _ _ _.
Arguments store {E} _.
Arguments env {E} _.
Arguments trace {E} _.

(** The calls made between two worlds of one run. *)
Definition issued {E : Type} (before after : World E) : list NetCall :=
  skipn (length (trace before)) (trace after).

Definition bytes : Type := list Byte.byte.

(** ** External libraries, by the interface the SDK uses *)

(** The module constant [defaultFetchFn]: the ambient [fetch], when there is one. *)
Class Ambient (E : Type) : Type := {
  defaultFetchFn : option (FetchLike E);
}.

(** [bs58]: [decode] throws on a character outside the alphabet. *)
Class Bs58 : Type := {
  bs58_encode : bytes -> string;
  bs58_decode : string -> Outcome bytes;
}.

(** A tweetnacl signing pair. *)
Record NaclKeyPair : Type := mkNaclKeyPair {
  publicKey : bytes;
  secretKey : bytes;
}.

(** [tweetnacl]: each function throws on an argument of the wrong size. *)
Class Nacl : Type := {
  nacl_sign_keyPair_fromSeed : bytes -> Outcome NaclKeyPair;
  nacl_sign_keyPair_fromSecretKey : bytes -> Outcome NaclKeyPair;
  nacl_sign_detached : bytes -> bytes -> Outcome bytes;
}.

(** A web3.js [Keypair], by what normalisation reads from it:
    [publicKey.toBase58()] and [secretKey]. *)
Record Keypair : Type := mkKeypair {
  kp_publicKey_toBase58 : string;
  kp_secretKey : bytes;
}.

Section Sdk.

Context {E : Type} {ambient : Ambient E} {bs58 : Bs58} {nacl : Nacl}.

(** Calling a transport: the answer is logged, the state behind it advances. *)
Definition invoke (v : Via) (f : FetchLike E) (u : string) (i : RequestLike)
  : Async (World E) ResponseLike :=
  fun w =>
    let (o, e') := f u i (env w) in
    (o, mkWorld (store w) e' (trace w ++ [mkCall v u i o])%list).

(** An effect on the outside state alone (a wallet's [signMessage]). *)
Definition outside {A : Type} (m : Async E A) : Async (World E) A :=
  fun w =>
    let (o, e') := m (env w) in
    (o, mkWorld (store w) e' (trace w)).

(** *** token-store.ts *)

(** Modelled from the spec: the default in-memory token store of
    [token-store.ts], which is not among the sources.  It holds at most one
    token; [get] gives the token or absent, [clear] leaves it absent. *)
Definition store_getToken : Async (World E) JsValue :=
  fun w => (Returns (store w), w).

Definition store_setToken (token : JsValue) : Async (World E) unit :=
  fun w => (Returns tt, mkWorld token (env w) (trace w)).

Definition store_clearToken : Async (World E) unit :=
  fun w => (Returns tt, mkWorld JNull (env w) (trace w)).

(** *** auth.ts and client.ts: shared helpers *)

Definition assertFetch (fetchFn : option (FetchLike E)) : Outcome (FetchLike E) :=
  match fetchFn with
  | Some f => Returns f
  | None =>
      match defaultFetchFn with
      | None =>
          Throws (ErrorObj
            "No fetch implementation available. Provide a custom fetch via the SDK constructor.")
      | Some f => Returns f
      end
  end.

(** [fetchJson] of auth.ts and [parseJson] of client.ts are the same function. *)
Definition fetchJson {S : Type} (res : ResponseLike) : Async S JsValue :=
  try_catch (settle (json res))
    (fun _ =>
       body <- settle (text res) ;;
       throw (ErrorObj ("Failed to parse JSON response: " ++ body))).

Definition parseJson {S : Type} (res : ResponseLike) : Async S JsValue := fetchJson res.

(** *** auth.ts *)

Definition fetchChallenge (baseUrl : string) (fetchFn : FetchLike E)
  : Async (World E) JsValue :=
  res <- invoke Plain fetchFn (baseUrl ++ "/api/auth/challenge")
           (mkRequest (Some "GET") None None) ;;
  if (status res >=? 400)%Z then
    body <- settle (text res) ;;
    throw (ErrorObj ("Challenge fetch failed (" ++ String_number (status res) ++ "): " ++ body))
  else fetchJson res.

Definition exchangeSignatureForToken (baseUrl : string) (wallet : string)
    (signature : string) (challengeToken : JsValue) (fetchFn : FetchLike E)
  : Async (World E) JsValue :=
  res <- invoke Plain fetchFn (baseUrl ++ "/api/auth")
           (mkRequest (Some "POST")
              (Some [("Content-Type", "application/json")])
              (Some (JSON_stringify_object
                       [("wallet", JStr wallet);
                        ("signature", JStr signature);
                        ("challengeToken", challengeToken)]))) ;;
  body <- fetchJson res ;;
  failed <- (if (status res >=? 400)%Z then ret true
             else token <- settle (getProp body "token") ;; ret (negb (truthy token))) ;;
  if failed : bool then
    error <- settle (getProp body "error") ;;
    let message :=
      if truthy error then error
      else JStr ("Auth failed (" ++ String_number (status res) ++ ")") in
    throw (ErrorObj (String_ message))
  else settle (getProp body "token").

(** [new TextEncoder().encode(v)]: the UTF-8 bytes of the text, none for an
    omitted argument. *)
Definition TextEncoder_encode (v : JsValue) : bytes :=
  match v with
  | JUndefined => []
  | _ => list_byte_of_string (String_ v)
  end.

Record WalletMessageSigner : Type := mkSigner {
  address : string;
  signMessage : bytes -> Async E bytes;
}.

(** [{ token, wallet }]. *)
Record Session : Type := mkSession {
  token : JsValue;
  session_wallet : string;
}.

(** [const { challenge, challengeToken } = ...]: destructuring [null] or
    [undefined] throws (the message is V8's), anything else is read by
    property. *)
Definition destructureChallenge (v : JsValue) : Outcome (JsValue * JsValue) :=
  match v with
  | JUndefined =>
      Throws (ErrorObj
        "Cannot destructure property 'challenge' of '(intermediate value)' as it is undefined.")
  | JNull =>
      Throws (ErrorObj
        "Cannot destructure property 'challenge' of '(intermediate value)' as it is null.")
  | _ =>
      match getProp v "challenge", getProp v "challengeToken" with
      | Returns c, Returns t => Returns (c, t)
      | Throws e, _ => Throws e
      | _, Throws e => Throws e
      end
  end.

Record WalletAuthOptions : Type := mkWalletAuthOptions {
  wa_baseUrl : string;
  wa_wallet : WalletMessageSigner;
  wa_fetch : option (FetchLike E);
}.

Definition authenticateWithWallet (options : WalletAuthOptions)
  : Async (World E) Session :=
  let baseUrl := wa_baseUrl options in
  let wallet := wa_wallet options in
  resolvedFetch <- settle (assertFetch (wa_fetch options)) ;;
  ch <- fetchChallenge baseUrl resolvedFetch ;;
  pair <- settle (destructureChallenge ch) ;;
  let (challenge, challengeToken) := pair : JsValue * JsValue in
  signatureBytes <- outside (signMessage wallet (TextEncoder_encode challenge)) ;;
  tok <- exchangeSignatureForToken baseUrl (address wallet)
           (bs58_encode signatureBytes) challengeToken resolvedFetch ;;
  ret (mkSession tok (address wallet)).

(** What is left of [SecretKeyInput] once [isKeypair] has answered no. *)
Inductive RawSecretKey : Type :=
| KeyString (text : string)
| KeyUint8Array (data : bytes)
| KeyNumbers (data : list Z).

(** [SecretKeyInput = string | Uint8Array | number[] | Keypair]. *)
Inductive SecretKeyInput : Type :=
| KeyKeypair (kp : Keypair)
| KeyRaw (raw : RawSecretKey).

(** ToUint8 of an integral number. *)
Definition ToUint8 (n : Z) : Byte.byte :=
  match Byte.of_N (Z.to_N (n mod 256)) with
  | Some b => b
  | None => Byte.x00
  end.

Definition Uint8Array_from (data : list Z) : bytes := map ToUint8 data.

(** The local [keyBytes] of [normalizeSecretKey]. *)
Definition keyBytes (raw : RawSecretKey) : Outcome bytes :=
  match raw with
  | KeyString text => bs58_decode text
  | KeyUint8Array data => Returns data
  | KeyNumbers data => Returns (Uint8Array_from data)
  end.

(** [{ wallet, secretKey }]. *)
Record NormalizedKey : Type := mkNormalizedKey {
  nk_wallet : string;
  nk_secretKey : bytes;
}.

Definition secretKeyLengthError : Thrown :=
  ErrorObj "Secret key must be 32-byte seed or 64-byte secret key.".

Definition pairToKey (pair : Outcome NaclKeyPair) : Outcome NormalizedKey :=
  match pair with
  | Returns p => Returns (mkNormalizedKey (bs58_encode (publicKey p)) (secretKey p))
  | Throws e => Throws e
  end.

Definition normalizeSecretKey (input : SecretKeyInput) : Outcome NormalizedKey :=
  match input with
  | KeyKeypair kp => Returns (mkNormalizedKey (kp_publicKey_toBase58 kp) (kp_secretKey kp))
  | KeyRaw raw =>
      match keyBytes raw with
      | Throws e => Throws e
      | Returns kb =>
          if (length kb =? 32)%nat then pairToKey (nacl_sign_keyPair_fromSeed kb)
          else if (length kb =? 64)%nat then pairToKey (nacl_sign_keyPair_fromSecretKey kb)
          else Throws secretKeyLengthError
      end
  end.

Record SecretKeyAuthOptions : Type := mkSecretKeyAuthOptions {
  sk_baseUrl : string;
  sk_secretKey : SecretKeyInput;
  sk_fetch : option (FetchLike E);
}.

Definition authenticateWithSecretKey (options : SecretKeyAuthOptions)
  : Async (World E) Session :=
  let baseUrl := sk_baseUrl options in
  resolvedFetch <- settle (assertFetch (sk_fetch options)) ;;
  key <- settle (normalizeSecretKey (sk_secretKey options)) ;;
  ch <- fetchChallenge baseUrl resolvedFetch ;;
  pair <- settle (destructureChallenge ch) ;;
  let (challenge, challengeToken) := pair : JsValue * JsValue in
  let message := TextEncoder_encode challenge in
  signed <- settle (nacl_sign_detached message (nk_secretKey key)) ;;
  let signature := bs58_encode signed in
  tok <- exchangeSignatureForToken baseUrl (nk_wallet key) signature challengeToken
           resolvedFetch ;;
  ret (mkSession tok (nk_wallet key)).

(** *** client.ts *)

Record LimenClient : Type := mkLimenClient {
  baseUrl : string;
  fetchFn : FetchLike E;
  paymentClient : option (PaymentClient E);
}.

Record LimenClientConfig : Type := mkLimenClientConfig {
  cfg_baseUrl : option string;
  cfg_fetch : option (FetchLike E);
  cfg_paymentClient : option (PaymentClient E);
}.

(** [s.replace(/\/$/, "")]: one slash at the very end is dropped. *)
Fixpoint strip_trailing_slash (s : string) : string :=
  match s with
  | EmptyString => ""
  | String c rest =>
      if (rest =? "") && (c =? "/")%char then "" else String c (strip_trailing_slash rest)
  end.

(** The constructor; the token store lives in the world. *)
Definition new_LimenClient (config : LimenClientConfig) : Outcome LimenClient :=
  let baseUrl :=
    match cfg_baseUrl config with
    | Some b => b
    | None => "https://api.limen.trade"
    end in
  match assertFetch (cfg_fetch config) with
  | Throws e => Throws e
  | Returns f => Returns (mkLimenClient (strip_trailing_slash baseUrl) f (cfg_paymentClient config))
  end.

Definition setPaymentClient (this : LimenClient) (paymentClient : PaymentClient E)
  : LimenClient :=
  mkLimenClient (baseUrl this) (fetchFn this) (Some paymentClient).

Definition getToken (this : LimenClient) : Async (World E) JsValue := store_getToken.

Definition setToken (this : LimenClient) (token : JsValue) : Async (World E) unit :=
  store_setToken token.

Definition clearToken (this : LimenClient) : Async (World E) unit := store_clearToken.

Definition client_authenticateWithWallet (this : LimenClient)
    (wallet : WalletMessageSigner) : Async (World E) JsValue :=
  session <- authenticateWithWallet
               (mkWalletAuthOptions (baseUrl this) wallet (Some (fetchFn this))) ;;
  setToken this (token session) ;;;
  ret (token session).

Definition client_authenticateWithSecretKey (this : LimenClient)
    (secretKey : SecretKeyInput) : Async (World E) JsValue :=
  session <- authenticateWithSecretKey
               (mkSecretKeyAuthOptions (baseUrl this) secretKey (Some (fetchFn this))) ;;
  setToken this (token session) ;;;
  ret (token session).

Definition unauthenticated : Thrown :=
  ErrorObj "No JWT is stored. Authenticate before making API requests.".

Definition authExpired : Thrown :=
  ErrorObj "Unauthorized: JWT expired or invalid. Re-authenticate and try again.".

Definition requireToken (this : LimenClient) : Async (World E) JsValue :=
  token <- getToken this ;;
  if negb (truthy token) then throw unauthenticated else ret token.

(** [init: { method?: string; body?: string }]. *)
Record FetchInit : Type := mkFetchInit {
  init_method : option string;
  init_body : option string;
}.

Definition string_truthy (s : option string) : bool :=
  match s with
  | Some t => negb (t =? "")
  | None => false
  end.

Definition authorizedFetch (this : LimenClient) (path : string) (init : FetchInit)
  : Async (World E) ResponseLike :=
  token <- requireToken this ;;
  let headers :=
    ("Authorization", "Bearer " ++ String_ token)
      :: (if string_truthy (init_body init)
          then [("Content-Type", "application/json")] else []) in
  res <- invoke Plain (fetchFn this) (baseUrl this ++ path)
           (mkRequest
              (Some (match init_method init with Some m => m | None => "POST" end))
              (Some headers)
              (init_body init)) ;;
  if (status res =? 401)%Z then
    clearToken this ;;;
    throw authExpired
  else if (status res >=? 400)%Z then
    bodyText <- settle (text res) ;;
    throw (ErrorObj ("Request failed (" ++ String_number (status res) ++ "): " ++ bodyText))
  else ret res.

(** [limit?: number | "all"]. *)
Inductive Limit : Type :=
| LimitAll
| LimitNumber (n : Z).

Record HistoryQueryOptions : Type := mkHistoryQueryOptions {
  page : option Z;
  limit : option Limit;
  all : option bool;
}.

(** [URLSearchParams]: the ordered list of name-value pairs. *)
Definition URLSearchParams : Type := list (string * string).

Fixpoint params_delete (name : string) (params : URLSearchParams) : URLSearchParams :=
  match params with
  | [] => []
  | (k, v) :: rest =>
      if k =? name then params_delete name rest else (k, v) :: params_delete name rest
  end.

(** [params.set(name, value)]: the first pair of that name takes the value
    and the others go; without one the pair is appended. *)
Fixpoint params_set (name value : string) (params : URLSearchParams) : URLSearchParams :=
  match params with
  | [] => [(name, value)]
  | (k, v) :: rest =>
      if k =? name then (name, value) :: params_delete name rest
      else (k, v) :: params_set name value rest
  end.

(** The application/x-www-form-urlencoded byte serialiser. *)
Definition urlencode_char (c : ascii) : string :=
  let n := N_of_ascii c in
  if ((n =? 42) || (n =? 45) || (n =? 46) || (n =? 95)
      || ((48 <=? n) && (n <=? 57))
      || ((65 <=? n) && (n <=? 90))
      || ((97 <=? n) && (n <=? 122)))%N
  then String c ""
  else if (n =? 32)%N then "+"
  else String "%" (String (hex_digit_upper (n / 16)) (String (hex_digit_upper (n mod 16)) "")).

Fixpoint urlencode (s : string) : string :=
  match s with
  | EmptyString => ""
  | String c rest => urlencode_char c ++ urlencode rest
  end.

(** [params.toString()]. *)
Definition params_toString (params : URLSearchParams) : string :=
  join "&" (map (fun kv => urlencode (fst kv) ++ "=" ++ urlencode (snd kv)) params).

(** The [params] of [getHistory] once both [if]s have run: [all] wins over
    [limit]; a [limit] or [page] of 0 is falsy and sets nothing.  Numbers are
    integers here: NaN, which the code also finds falsy, is not represented. *)
Definition historyParams (options : HistoryQueryOptions) : URLSearchParams :=
  let params : URLSearchParams := [] in
  let params :=
    if match all options with Some b => b | None => false end
    then params_set "all" "true" params
    else
      match limit options with
      | Some LimitAll => params_set "limit" "all" params
      | Some (LimitNumber n) =>
          if negb (n =? 0)%Z then params_set "limit" (String_number n) params else params
      | None => params
      end in
  match page options with
  | Some n => if negb (n =? 0)%Z then params_set "page" (String_number n) params else params
  | None => params
  end.

(** The local [query]. *)
Definition historyQuery (options : HistoryQueryOptions) : string :=
  params_toString (historyParams options).

Definition historyPath (options : HistoryQueryOptions) : string :=
  let query := historyQuery options in
  "/api/history" ++ (if negb (query =? "") then "?" ++ query else "").

(** [HistoryListResponse]. *)
Record HistoryListResponse : Type := mkHistoryListResponse {
  history : JsValue;
  pagination : JsValue;
}.

Definition getHistory (this : LimenClient) (options : HistoryQueryOptions)
  : Async (World E) HistoryListResponse :=
  res <- authorizedFetch this (historyPath options) (mkFetchInit None None) ;;
  data <- parseJson res ;;
  h <- settle (getProp data "history") ;;
  p <- settle (getProp data "pagination") ;;
  ret (mkHistoryListResponse (if isArray h then h else JArr []) (coalesce p JNull)).

Record SignalRequestOptions : Type := mkSignalRequestOptions {
  ticker : string;
  timeframe : option string;
  metadata : JsValue;
}.

Definition noPaymentClient : Thrown :=
  ErrorObj
    "No payment client configured. Use setPaymentClient() with an x402-enabled fetch client.".

Definition paymentRequired : Thrown :=
  ErrorObj "Payment required. The provided payment client did not complete the x402 flow.".

(** The object literal handed to [JSON.stringify] in [requestSignal]. *)
Definition signalBody (options : SignalRequestOptions) : list (string * JsValue) :=
  [("ticker", JStr (ticker options));
   ("timeframe", JStr (match timeframe options with Some t => t | None => "1d" end));
   ("metadata", metadata options)].

Definition requestSignal (this : LimenClient) (options : SignalRequestOptions)
  : Async (World E) JsValue :=
  match paymentClient this with
  | None => throw noPaymentClient
  | Some pc =>
      token <- requireToken this ;;
      let body := JSON_stringify_object (signalBody options) in
      res <- invoke Paid (pay_fetch pc) (baseUrl this ++ "/api/analyze/signal")
               (mkRequest (Some "POST")
                  (Some [("Content-Type", "application/json");
                         ("Authorization", "Bearer " ++ String_ token)])
                  (Some body)) ;;
      if (status res =? 401)%Z then
        clearToken this ;;;
        throw authExpired
      else if (status res =? 402)%Z then throw paymentRequired
      else if (status res >=? 400)%Z then
        bodyText <- settle (text res) ;;
        throw (ErrorObj ("Signal request failed (" ++ String_number (status res) ++ "): "
                         ++ bodyText))
      else parseJson res
  end.

End Sdk.

Arguments LimenClient : clear implicits.
Arguments LimenClientConfig : clear implicits.
Arguments WalletMessageSigner : clear implicits.
Arguments WalletAuthOptions : clear implicits.
Arguments SecretKeyAuthOptions : clear implicits.

(** ** The payment module *)

(** A [PublicKey], by its base58 text. *)
Definition PublicKey : Type := string.

(** What [getAccountInfo] gives for an existing account; [owner] may be missing. *)
Record AccountInfo : Type := mkAccountInfo {
  owner : option PublicKey;
}.

Definition SendOptions : Type := JsValue.

(** [createAssociatedTokenAccountInstruction(payer, ata, owner, mint, programId)]. *)
Record Instruction : Type := mkInstruction {
  ix_payer : PublicKey;
  ix_associatedToken : PublicKey;
  ix_owner : PublicKey;
  ix_mint : PublicKey;
  ix_programId : PublicKey;
}.

Definition TOKEN_PROGRAM_ID : PublicKey := "TokenkegQfeZyiNwAJbNbGKPFXCWuBvf9Ss623VQ5DA".
Definition TOKEN_2022_PROGRAM_ID : PublicKey := "TokenzQdBNbLqP5VEhdkAS6EPFLC1PHnBqCXEpPxuEb".
Definition NETWORK : string := "solana".

(** web3.js and spl-token over a chain state [C]: the [Connection] methods at
    commitment "confirmed", the [PublicKey] constructor, the address
    derivation, and a legacy [Transaction] built from one instruction, signed
    and serialised. *)
Class Web3 (C : Type) : Type := {
  new_PublicKey : string -> Outcome PublicKey;
  getAccountInfo : PublicKey -> Async C (option AccountInfo);
  getAssociatedTokenAddress : PublicKey -> PublicKey -> bool -> PublicKey -> Async C PublicKey;
  getLatestBlockhash : Async C (string * Z);
  signedTransactionBytes : Instruction -> string -> PublicKey -> Keypair -> Outcome bytes;
  sendRawTransaction : bytes -> option SendOptions -> Async C string;
  confirmTransaction : string -> string -> Z -> Async C unit;
}.

(** [WalletPaymentAdapter] over a transaction type [VT]. *)
Record WalletPaymentAdapter (C VT : Type) : Type := mkWalletPaymentAdapter {
  wpa_address : string;
  signTransaction : VT -> Async C VT;
  sendTransaction : VT -> Async C string;
}.

Arguments mkWalletPaymentAdapter {C VT} _ _ _.

(** The argument of [createX402Client]. *)
Record X402Options (C VT : Type) : Type := mkX402Options {
  x_wallet : WalletPaymentAdapter C VT;
  x_network : string;
  x_maxPaymentAmount : Z;
}.

Arguments mkX402Options {C VT} _ _ _.

(** x402-solana and the [VersionedTransaction] methods the wallet glue calls. *)
Class X402 (C VT : Type) : Type := {
  createX402Client : X402Options C VT -> PaymentClient C;
  vt_sign : VT -> list Keypair -> VT;
  vt_serialize : VT -> Outcome bytes;
}.

(** What the keypair client did, in order: a call of [baseClient.fetch] with
    its answer, or an entry into [ensureAssociatedTokenAccount]. *)
Inductive PayEvent : Type :=
| BaseFetch (input : string) (init : RequestLike) (answer : Outcome ResponseLike)
| Remediation (mintAddress : string).

Record PayWorld (C : Type) : Type := mkPayWorld {
  chain : C;
  events : list PayEvent;
}.

Arguments mkPayWorld {C} _ _.
Arguments chain {C} _.
Arguments events {C} _.

Definition is_fetch (e : PayEvent) : bool :=
  match e with BaseFetch _ _ _ => true | Remediation _ => false end.

Definition is_remediation (e : PayEvent) : bool :=
  match e with BaseFetch _ _ _ => false | Remediation _ => true end.

Definition fetches (evs : list PayEvent) : nat := length (filter is_fetch evs).

Definition remediations (evs : list PayEvent) : nat := length (filter is_remediation evs).

(** The events of one run. *)
Definition happened {C : Type} (before after : PayWorld C) : list PayEvent :=
  skipn (length (events before)) (events after).

(** *** The pattern [/Associated Token Account for ([1-9A-HJ-NP-Za-km-z]{32,44})/] *)

Definition is_base58_char (c : ascii) : bool :=
  let n := N_of_ascii c in
  (((49 <=? n) && (n <=? 57))
   || ((65 <=? n) && (n <=? 72))
   || ((74 <=? n) && (n <=? 78))
   || ((80 <=? n) && (n <=? 90))
   || ((97 <=? n) && (n <=? 107))
   || ((109 <=? n) && (n <=? 122)))%N.

(** The longest run of class characters at the head, at most [n] of them. *)
Fixpoint take_base58 (n : nat) (s : string) : string :=
  match n, s with
  | S n', String c rest => if is_base58_char c then String c (take_base58 n' rest) else ""
  | _, _ => ""
  end.

Fixpoint strip_prefix (p s : string) : option string :=
  match p, s with
  | EmptyString, _ => Some s
  | String a p', String b s' => if (a =? b)%char then strip_prefix p' s' else None
  | String _ _, EmptyString => None
  end.

(** The pattern anchored at the head of [s]: the capture, when it matches. *)
Definition match_here (s : string) : option string :=
  match strip_prefix "Associated Token Account for " s with
  | Some rest =>
      let captured := take_base58 44 rest in
      if (32 <=? String.length captured)%nat then Some captured else None
  | None => None
  end.

(** [message.match(...)]: the capture group of the leftmost match. *)
Fixpoint mintMatch (message : string) : option string :=
  match match_here message with
  | Some m => Some m
  | None =>
      match message with
      | EmptyString => None
      | String _ rest => mintMatch rest
      end
  end.

(** [err instanceof Error ? err.message : String(err)]. *)
Definition errorMessage (err : Thrown) : string :=
  match err with
  | ErrorObj message => message
  | NonError rendered => rendered
  end.

Section Payment.

Context {C VT : Type} {web3 : Web3 C} {x402 : X402 C VT}.

Definition onChain {A : Type} (m : Async C A) : Async (PayWorld C) A :=
  fun w =>
    let (o, c') := m (chain w) in
    (o, mkPayWorld c' (events w)).

Definition note (e : PayEvent) : Async (PayWorld C) unit :=
  fun w => (Returns tt, mkPayWorld (chain w) (events w ++ [e])%list).

Record WalletPaymentClientOptions : Type := mkWalletPaymentClientOptions {
  wp_wallet : WalletPaymentAdapter C VT;
  wp_maxPaymentAmount : option Z;
}.

Definition createWalletPaymentClient (options : WalletPaymentClientOptions)
  : PaymentClient C :=
  let maxPaymentAmount :=
    match wp_maxPaymentAmount options with
    | Some m => m
    | None => 1000000%Z
    end in
  createX402Client (mkX402Options (wp_wallet options) NETWORK maxPaymentAmount).

(** The [connection] option is the [Web3] instance. *)
Record KeypairPaymentClientOptions : Type := mkKeypairPaymentClientOptions {
  kpc_keypair : Keypair;
  kpc_maxPaymentAmount : option Z;
  kpc_sendOptions : option SendOptions;
}.

Definition ensureAssociatedTokenAccount (options : KeypairPaymentClientOptions)
    (mintAddress : string) : Async (PayWorld C) unit :=
  let keypair := kpc_keypair options in
  note (Remediation mintAddress) ;;;
  mintPubkey <- settle (new_PublicKey mintAddress) ;;
  mintInfo <- onChain (getAccountInfo mintPubkey) ;;
  match mintInfo with
  | None =>
      throw (ErrorObj ("Token mint " ++ mintAddress ++ " does not exist on " ++ NETWORK))
  | Some info =>
      let programId :=
        match owner info with
        | Some o => if o =? TOKEN_2022_PROGRAM_ID then TOKEN_2022_PROGRAM_ID
                    else TOKEN_PROGRAM_ID
        | None => TOKEN_PROGRAM_ID
        end in
      let owner := kp_publicKey_toBase58 keypair in
      ata <- onChain (getAssociatedTokenAddress mintPubkey owner false programId) ;;
      ataInfo <- onChain (getAccountInfo ata) ;;
      match ataInfo with
      | Some _ => ret tt
      | None =>
          let ix := mkInstruction owner ata owner mintPubkey programId in
          latest <- onChain getLatestBlockhash ;;
          let (blockhash, lastValidBlockHeight) := latest : string * Z in
          raw <- settle (signedTransactionBytes ix blockhash owner keypair) ;;
          signature <- onChain (sendRawTransaction raw (kpc_sendOptions options)) ;;
          onChain (confirmTransaction signature blockhash lastValidBlockHeight)
      end
  end.

(** The [wallet] object handed to the x402 client. *)
Definition keypairWallet (options : KeypairPaymentClientOptions)
  : WalletPaymentAdapter C VT :=
  let keypair := kpc_keypair options in
  let signTransaction := fun transaction : VT => ret (vt_sign transaction [keypair]) in
  mkWalletPaymentAdapter
    (kp_publicKey_toBase58 keypair)
    signTransaction
    (fun transaction =>
       signed <- signTransaction transaction ;;
       raw <- settle (vt_serialize signed) ;;
       sendRawTransaction raw (kpc_sendOptions options)).

(** [baseClient.fetch], logged. *)
Definition baseFetch (baseClient : PaymentClient C) (input : string) (init : RequestLike)
  : Async (PayWorld C) ResponseLike :=
  fun w =>
    let (o, c') := pay_fetch baseClient input init (chain w) in
    (o, mkPayWorld c' (events w ++ [BaseFetch input init o])%list).

(** [const baseClient = createWalletPaymentClient({ wallet, maxPaymentAmount })]. *)
Definition baseClientOf (options : KeypairPaymentClientOptions) : PaymentClient C :=
  createWalletPaymentClient
    (mkWalletPaymentClientOptions (keypairWallet options) (kpc_maxPaymentAmount options)).

Definition createKeypairPaymentClient (options : KeypairPaymentClientOptions)
  : PaymentClient (PayWorld C) :=
  let baseClient := baseClientOf options in
  mkPaymentClient
    (fun input init =>
       try_catch (baseFetch baseClient input init)
         (fun err =>
            let message := errorMessage err in
            match mintMatch message with
            | Some mint =>
                ensureAssociatedTokenAccount options mint ;;;
                baseFetch baseClient input init
            | None => throw err
            end)).

(** The world after the first [baseClient.fetch] of a call. *)
Definition afterFirstFetch (options : KeypairPaymentClientOptions) (input : string)
    (init : RequestLike) (w : PayWorld C) : PayWorld C :=
  snd (baseFetch (baseClientOf options) input init w).

End Payment.

Arguments KeypairPaymentClientOptions : clear implicits.
Arguments WalletPaymentClientOptions : clear implicits.

(** ** Text predicates used in the statements *)

(** [s.startsWith(p)]. *)
Fixpoint starts_with (p s : string) : bool :=
  match p, s with
  | EmptyString, _ => true
  | String a p', String b s' => (a =? b)%char && starts_with p' s'
  | String _ _, EmptyString => false
  end.

(** [s.includes(sub)]. *)
Fixpoint includes (sub s : string) : bool :=
  starts_with sub s
  || match s with
     | EmptyString => false
     | String _ rest => includes sub rest
     end.

Fixpoint has_char (c : ascii) (s : string) : bool :=
  match s with
  | EmptyString => false
  | String a rest => (a =? c)%char || has_char c rest
  end.

Fixpoint all_chars (P : ascii -> bool) (s : string) : bool :=
  match s with
  | EmptyString => true
  | String a rest => P a && all_chars P rest
  end.

Definition digit_or_minus (c : ascii) : bool :=
  let n := N_of_ascii c in ((n =? 45) || ((48 <=? n) && (n <=? 57)))%N.

(** ** The runs, read off the code

    Each function below restates, without the monad, what one of the
    functions above does with the answer of its transport; the lemmas
    [authorizedFetch_truthy], [getHistory_after_fetch], [requestSignal_truthy],
    [fetchChallenge_run] and [exchange_run] prove the restatement equal to the
    code. *)

Section Views.

Context {E : Type}.

(** The request [authorizedFetch] hands to the transport. *)
Definition authorizedRequest (token : JsValue) (init : FetchInit) : RequestLike :=
  mkRequest
    (Some (match init_method init with Some m => m | None => "POST" end))
    (Some (("Authorization", "Bearer " ++ String_ token)
             :: (if string_truthy (init_body init)
                 then [("Content-Type", "application/json")] else [])))
    (init_body init).

(** What [authorizedFetch] makes of the transport's answer [o], in the world
    [w1] reached once the call is logged. *)
Definition authorizedVerdict (o : Outcome ResponseLike) (w1 : World E)
  : Outcome ResponseLike * World E :=
  match o with
  | Throws e => (Throws e, w1)
  | Returns res =>
      if (status res =? 401)%Z then (Throws authExpired, mkWorld JNull (env w1) (trace w1))
      else if (status res >=? 400)%Z then
        match text res with
        | Returns bodyText =>
            (Throws (ErrorObj ("Request failed (" ++ String_number (status res) ++ "): "
                               ++ bodyText)), w1)
        | Throws e => (Throws e, w1)
        end
      else (Returns res, w1)
  end.

(** [fetchJson] without the monad. *)
Definition jsonOf (res : ResponseLike) : Outcome JsValue :=
  match json res with
  | Returns v => Returns v
  | Throws _ =>
      match text res with
      | Returns raw => Throws (ErrorObj ("Failed to parse JSON response: " ++ raw))
      | Throws e => Throws e
      end
  end.

(** [getHistory] after [authorizedFetch]: decoding leaves the world alone. *)
Definition historyOf (res : ResponseLike) : Outcome HistoryListResponse :=
  match json res with
  | Throws _ =>
      match text res with
      | Returns body => Throws (ErrorObj ("Failed to parse JSON response: " ++ body))
      | Throws e => Throws e
      end
  | Returns data =>
      match getProp data "history", getProp data "pagination" with
      | Returns h, Returns p =>
          Returns (mkHistoryListResponse (if isArray h then h else JArr []) (coalesce p JNull))
      | Throws e, _ => Throws e
      | _, Throws e => Throws e
      end
  end.

(** The single call of a [getHistory] run that holds a token. *)
Definition historyCall (this : LimenClient E) (options : HistoryQueryOptions) (w : World E)
  : NetCall :=
  let u := baseUrl this ++ historyPath options in
  let req := authorizedRequest (store w) (mkFetchInit None None) in
  mkCall Plain u req (fst (fetchFn this u req (env w))).

(** The request [requestSignal] hands to the payment client. *)
Definition signalRequest (token : JsValue) (options : SignalRequestOptions) : RequestLike :=
  mkRequest (Some "POST")
    (Some [("Content-Type", "application/json");
           ("Authorization", "Bearer " ++ String_ token)])
    (Some (JSON_stringify_object (signalBody options))).

(** The single call of a [requestSignal] run that holds a token. *)
Definition signalCall (this : LimenClient E) (pc : PaymentClient E)
    (options : SignalRequestOptions) (w : World E) : NetCall :=
  let u := baseUrl this ++ "/api/analyze/signal" in
  let req := signalRequest (store w) options in
  mkCall Paid u req (fst (pay_fetch pc u req (env w))).

(** What [requestSignal] makes of the payment client's answer. *)
Definition signalVerdict (o : Outcome ResponseLike) (w1 : World E)
  : Outcome JsValue * World E :=
  match o with
  | Throws e => (Throws e, w1)
  | Returns res =>
      if (status res =? 401)%Z then (Throws authExpired, mkWorld JNull (env w1) (trace w1))
      else if (status res =? 402)%Z then (Throws paymentRequired, w1)
      else if (status res >=? 400)%Z then
        match text res with
        | Returns bodyText =>
            (Throws (ErrorObj ("Signal request failed (" ++ String_number (status res)
                               ++ "): " ++ bodyText)), w1)
        | Throws e => (Throws e, w1)
        end
      else
        match json res with
        | Returns data => (Returns data, w1)
        | Throws _ =>
            match text res with
            | Returns body =>
                (Throws (ErrorObj ("Failed to parse JSON response: " ++ body)), w1)
            | Throws e => (Throws e, w1)
            end
        end
  end.

Definition challengeRequest : RequestLike := mkRequest (Some "GET") None None.

(** What [fetchChallenge] makes of the transport's answer. *)
Definition challengeVerdict (o : Outcome ResponseLike) : Outcome JsValue :=
  match o with
  | Throws e => Throws e
  | Returns res =>
      if (status res >=? 400)%Z then
        match text res with
        | Returns body =>
            Throws (ErrorObj ("Challenge fetch failed (" ++ String_number (status res)
                              ++ "): " ++ body))
        | Throws e => Throws e
        end
      else jsonOf res
  end.

(** The request of the token exchange. *)
Definition exchangeRequest (wallet signature : string) (challengeToken : JsValue)
  : RequestLike :=
  mkRequest (Some "POST")
    (Some [("Content-Type", "application/json")])
    (Some (JSON_stringify_object
             [("wallet", JStr wallet);
              ("signature", JStr signature);
              ("challengeToken", challengeToken)])).

(** The message of the error thrown on a refused exchange. *)
Definition authFailureMessage (st : Z) (error : JsValue) : string :=
  if truthy error then String_ error else "Auth failed (" ++ String_number st ++ ")".

(** What [exchangeSignatureForToken] makes of a response. *)
Definition exchangeVerdict (res : ResponseLike) : Outcome JsValue :=
  match jsonOf res with
  | Throws e => Throws e
  | Returns body =>
      let refuse :=
        match getProp body "error" with
        | Returns error => Throws (ErrorObj (authFailureMessage (status res) error))
        | Throws e => Throws e
        end in
      if (status res >=? 400)%Z then refuse
      else
        match getProp body "token" with
        | Throws e => Throws e
        | Returns token => if negb (truthy token) then refuse else Returns token
        end
  end.

(** How a refused exchange must surface, given the response [res] of the
    POST: a JSON object refused by status or for want of a truthy token gives
    the message of [authFailureMessage]; a body that is not JSON gives the
    parse failure with the raw text. *)
Definition refusedAsCoded {A : Type} (out : Outcome A) (res : ResponseLike) : Prop :=
  (forall fields,
      json res = Returns (JObj fields) ->
      (status res >= 400)%Z \/ truthy (lookup "token" fields) = false ->
      out = Throws (ErrorObj (authFailureMessage (status res) (lookup "error" fields))))
  /\ (forall e raw,
      json res = Throws e -> text res = Returns raw ->
      out = Throws (ErrorObj ("Failed to parse JSON response: " ++ raw))).

(** The outcome of the exchange once the POST has been answered by [o]. *)
Definition sessionOf (wallet : string) (o : Outcome ResponseLike) : Outcome Session :=
  match o with
  | Throws e => Throws e
  | Returns res =>
      match exchangeVerdict res with
      | Returns t => Returns (mkSession t wallet)
      | Throws e => Throws e
      end
  end.

Definition challengeCall (b : string) (o : Outcome ResponseLike) : NetCall :=
  mkCall Plain (b ++ "/api/auth/challenge") challengeRequest o.

Definition exchangeCall (b wallet signature : string) (challengeToken : JsValue)
    (o : Outcome ResponseLike) : NetCall :=
  mkCall Plain (b ++ "/api/auth") (exchangeRequest wallet signature challengeToken) o.

(** The shapes the calls of one authentication attempt can take: none, the
    challenge alone, or the challenge, answered below 400, then the exchange. *)
Definition authCalls (b : string) (calls : list NetCall) : Prop :=
  calls = []
  \/ (exists o, calls = [challengeCall b o])
  \/ (exists res wallet signature challengeToken o2,
        (status res < 400)%Z
        /\ calls = [challengeCall b (Returns res);
                    exchangeCall b wallet signature challengeToken o2]).

End Views.

(** ** Test doubles *)

(** A transport over no state that answers every request with [res]. *)
Definition answering (res : ResponseLike) : FetchLike unit :=
  fun _ _ e => (Returns res, e).

(** A response of the given status whose body is the JSON value [v]. *)
Definition jsonResponse (st : Z) (v : JsValue) : ResponseLike :=
  mkResponse st (Returns v) (Returns (match JSON_stringify v with Some s => s | None => "" end)).

(** A response whose body is text that is not JSON. *)
Definition textResponse (st : Z) (raw : string) : ResponseLike :=
  mkResponse st (Throws (ErrorObj "Unexpected token in JSON")) (Returns raw).

(** A runtime without a global [fetch]. *)
Definition noAmbientFetch : Ambient unit := {| defaultFetchFn := None |}.

(** A client on [answering res], with the same double as its payment client. *)
Definition clientOn (res : ResponseLike) : LimenClient unit :=
  mkLimenClient "https://api.limen.trade" (answering res)
    (Some (mkPaymentClient (answering res))).

Definition worldWith (tok : JsValue) : World unit := mkWorld tok tt [].

(** An authentication server: the challenge on GET, [exchange] on anything else. *)
Definition authServer (exchange : ResponseLike) : FetchLike unit :=
  fun _ init e =>
    match method init with
    | Some m =>
        if m =? "GET"
        then (Returns (jsonResponse 200
                         (JObj [("challenge", JStr "sign me");
                                ("challengeToken", JStr "c-1")])), e)
        else (Returns exchange, e)
    | None => (Returns exchange, e)
    end.

(** A wallet that signs by echoing the message. *)
Definition echoWallet : WalletMessageSigner unit :=
  mkSigner "9xQeWvG816bUx9EPjHmaT23yvVM2ZWbrrpZb9PusVFin" (fun message e => (Returns message, e)).

(** Stand-ins for bs58 and tweetnacl; no statement depends on what they compute. *)
Definition plainBs58 : Bs58 :=
  {| bs58_encode := string_of_list_byte;
     bs58_decode := fun text => Returns (list_byte_of_string text) |}.

Definition plainNacl : Nacl :=
  {| nacl_sign_keyPair_fromSeed := fun seed => Returns (mkNaclKeyPair seed (seed ++ seed)%list);
     nacl_sign_keyPair_fromSecretKey :=
       fun key => Returns (mkNaclKeyPair (skipn 32 key) key);
     nacl_sign_detached := fun message _ => Returns message |}.

(** The USDC mint. *)
Definition usdcMint : string := "EPjFWdd5AufqSSqeM2qN1xzybapC8G4wEGGkZwyTDt1v".

(** A chain reduced to two facts: does the mint exist, does the payer's
    associated token account exist. *)
Record Ledger : Type := mkLedger {
  mintExists : bool;
  ataExists : bool;
}.

Definition ledgerWeb3 : Web3 Ledger :=
  {| new_PublicKey := fun text => Returns text;
     getAccountInfo := fun key l =>
       if starts_with "ata:" key
       then (Returns (if ataExists l then Some (mkAccountInfo None) else None), l)
       else (Returns (if mintExists l then Some (mkAccountInfo (Some TOKEN_PROGRAM_ID))
                      else None), l);
     getAssociatedTokenAddress := fun mint _ _ _ l => (Returns ("ata:" ++ mint), l);
     getLatestBlockhash := fun l => (Returns ("blockhash", 100%Z), l);
     signedTransactionBytes := fun _ _ _ _ => Returns [];
     sendRawTransaction := fun _ _ l => (Returns "signature", mkLedger (mintExists l) true);
     confirmTransaction := fun _ _ _ l => (Returns tt, l) |}.

(** An x402 client that pays only from an existing token account. *)
Definition ledgerX402 : X402 Ledger unit :=
  {| createX402Client := fun _ =>
       mkPaymentClient (fun _ _ l =>
         if ataExists l
         then (Returns (jsonResponse 200 (JObj [("success", JBool true)])), l)
         else (Throws (ErrorObj ("Payer is missing an Associated Token Account for "
                                 ++ usdcMint ++ ".")), l));
     vt_sign := fun transaction _ => transaction;
     vt_serialize := fun _ => Returns [] |}.

Definition payerOptions : KeypairPaymentClientOptions :=
  mkKeypairPaymentClientOptions
    (mkKeypair "9xQeWvG816bUx9EPjHmaT23yvVM2ZWbrrpZb9PusVFin" []) None None.

Definition signalUrl : string := "https://api.limen.trade/api/analyze/signal".

Definition emptyRequest : RequestLike := mkRequest None None None.

(** *** Sample inputs *)

Definition sampleHistoryOptions : HistoryQueryOptions :=
  mkHistoryQueryOptions None (Some (LimitNumber 20)) (Some true).

Definition sampleSignalOptions : SignalRequestOptions :=
  mkSignalRequestOptions "SOL" None JUndefined.

Definition expired : ResponseLike := jsonResponse 401 (JObj [("error", JStr "jwt expired")]).

Definition bareBody : ResponseLike := jsonResponse 200 (JObj []).

(** The call [getHistory] makes on [clientOn res] with the token [jwt]. *)
Definition sampleHistoryCall (res : ResponseLike) : NetCall :=
  mkCall Plain "https://api.limen.trade/api/history?all=true"
    (mkRequest (Some "POST") (Some [("Authorization", "Bearer jwt")]) None)
    (Returns res).

Definition sampleSignalCall (res : ResponseLike) : NetCall :=
  mkCall Paid signalUrl
    (signalRequest (JStr "jwt") sampleSignalOptions)
    (Returns res).

Definition shortKey : RawSecretKey :=
  KeyUint8Array [Byte.x01; Byte.x02; Byte.x03; Byte.x04; Byte.x05].

Definition sampleKeyOptions : SecretKeyAuthOptions unit :=
  mkSecretKeyAuthOptions "https://api.limen.trade" (KeyRaw shortKey)
    (Some (answering bareBody)).

Definition refusal : ResponseLike :=
  jsonResponse 403 (JObj [("error", JStr "wallet not allowed")]).

Definition badGateway : ResponseLike := textResponse 502 "Bad Gateway".

Definition sampleWalletOptions (exchange : ResponseLike) : WalletAuthOptions unit :=
  mkWalletAuthOptions "https://api.limen.trade" echoWallet (Some (authServer exchange)).

Definition walletRun (exchange : ResponseLike) : Outcome Session * World unit :=
  authenticateWithWallet (ambient := noAmbientFetch) (bs58 := plainBs58)
    (sampleWalletOptions exchange) (worldWith JNull).

(** The exchange call of [walletRun]. *)
Definition sampleExchangeCall (exchange : ResponseLike) : NetCall :=
  mkCall Plain "https://api.limen.trade/api/auth"
    (exchangeRequest "9xQeWvG816bUx9EPjHmaT23yvVM2ZWbrrpZb9PusVFin" "sign me" (JStr "c-1"))
    (Returns exchange).

Definition keypairFetch : FetchLike (PayWorld Ledger) :=
  pay_fetch (createKeypairPaymentClient (web3 := ledgerWeb3) (x402 := ledgerX402)
               payerOptions).

Definition missingAccount : Thrown :=
  ErrorObj ("Payer is missing an Associated Token Account for " ++ usdcMint ++ ".").

Definition paid : ResponseLike := jsonResponse 200 (JObj [("success", JBool true)]).

(** The mint exists, the payer's account does not. *)
Definition unfunded : PayWorld Ledger := mkPayWorld (mkLedger true false) [].

(** Not even the mint exists. *)
Definition noMint : PayWorld Ledger := mkPayWorld (mkLedger false false) [].

Definition unavailable : ResponseLike := textResponse 503 "Service Unavailable".

Definition needsPayment : ResponseLike := textResponse 402 "Payment Required".

Definition granted : ResponseLike := jsonResponse 200 (JObj [("token", JStr "jwt")]).



(** A client that talks to [authServer exchange]. *)
Definition loginClient (exchange : ResponseLike) : LimenClient unit :=
  mkLimenClient "https://api.limen.trade" (authServer exchange) None.

Definition sampleChallengeCall (o : Outcome ResponseLike) : NetCall :=
  challengeCall "https://api.limen.trade" o.

Definition challengeAnswer : ResponseLike :=
  jsonResponse 200 (JObj [("challenge", JStr "sign me"); ("challengeToken", JStr "c-1")]).

Definition slashConfig : LimenClientConfig unit :=
  mkLimenClientConfig (Some "https://staging.limen.trade/") (Some (answering bareBody)) None.

Definition healthy : PayWorld Ledger := mkPayWorld (mkLedger true true) [].

Definition refusedWalletRun : Outcome Session * World unit :=
  authenticateWithWallet (ambient := noAmbientFetch) (bs58 := plainBs58)
    (mkWalletAuthOptions "https://api.limen.trade" echoWallet (Some (answering unavailable)))
    (worldWith JNull).

(** tweetnacl as far as its size checks go: each function throws the
    library's own message on an argument of the wrong size. *)
Definition strictNacl : Nacl :=
  {| nacl_sign_keyPair_fromSeed := fun seed =>
       if (length seed =? 32)%nat then Returns (mkNaclKeyPair seed (seed ++ seed)%list)
       else Throws (ErrorObj "bad seed size");
     nacl_sign_keyPair_fromSecretKey := fun key =>
       if (length key =? 64)%nat then Returns (mkNaclKeyPair (skipn 32 key) key)
       else Throws (ErrorObj "bad secret key size");
     nacl_sign_detached := fun message key =>
       if (length key =? 64)%nat then Returns message
       else Throws (ErrorObj "bad secret key size") |}.

(** A [Keypair] object built around a five-byte secret key. *)
Definition shortKeypair : Keypair :=
  mkKeypair "9xQeWvG816bUx9EPjHmaT23yvVM2ZWbrrpZb9PusVFin"
    [Byte.x01; Byte.x02; Byte.x03; Byte.x04; Byte.x05].

Definition shortKeypairRun : Outcome Session * World unit :=
  authenticateWithSecretKey (ambient := noAmbientFetch) (bs58 := plainBs58)
    (nacl := strictNacl)
    (mkSecretKeyAuthOptions "https://api.limen.trade" (KeyKeypair shortKeypair)
       (Some (authServer granted)))
    (worldWith JNull).

(** The five-byte key of [shortKey] where neither [options.fetch] nor an
    ambient [fetch] exists. *)
Definition noTransportRun : Outcome Session * World unit :=
  authenticateWithSecretKey (ambient := noAmbientFetch) (bs58 := plainBs58)
    (nacl := strictNacl)
    (mkSecretKeyAuthOptions "https://api.limen.trade" (KeyRaw shortKey) None)
    (worldWith JNull).

(** A predicate for a call that fails before any transport is touched. *)
Definition failsOffline {E A : Type} (run : Outcome A * World E) (w : World E)
    (e : Thrown) : Prop :=
  fst run = Throws e /\ snd run = w /\ issued w (snd run) = [].

(** * Facts *)

Lemma skipn_length_app {A : Type} (l k : list A) : skipn (length l) (l ++ k)%list = k.
Proof. induction l as [|x l IH]; simpl; auto. Qed.

Lemma issued_same {E : Type} (w : World E) (s : JsValue) (e : E) :
  issued w (mkWorld s e (trace w)) = [].
Proof. unfold issued; simpl. apply skipn_all. Qed.

Lemma issued_self {E : Type} (w : World E) : issued w w = [].
Proof. unfold issued. apply skipn_all. Qed.

Lemma issued_more {E : Type} (w : World E) (s : JsValue) (e : E) (l : list NetCall) :
  issued w (mkWorld s e (trace w ++ l)%list) = l.
Proof. unfold issued; simpl. apply skipn_length_app. Qed.

Lemma prefix_has_char (c : ascii) (sub s : string) :
  starts_with sub s = true -> has_char c sub = true -> has_char c s = true.
Proof.
  revert s. induction sub as [|a sub IH]; intros s Hp Hc; simpl in *; [discriminate|].
  destruct s as [|b s]; simpl in Hp; [discriminate|].
  apply andb_true_iff in Hp. destruct Hp as [Hab Hp].
  apply Ascii.eqb_eq in Hab. subst b.
  simpl. apply orb_true_iff in Hc. destruct Hc as [Hc|Hc].
  - rewrite Hc. reflexivity.
  - rewrite (IH s Hp Hc). apply orb_true_r.
Qed.

Lemma includes_needs_char (c : ascii) (sub s : string) :
  has_char c sub = true -> has_char c s = false -> includes sub s = false.
Proof.
  intros Hsub. induction s as [|b s IH]; intros Hs.
  - simpl. rewrite orb_false_r. destruct (starts_with sub "") eqn:Hp; auto.
    rewrite (prefix_has_char c sub "" Hp Hsub) in Hs. discriminate.
  - simpl in Hs. apply orb_false_iff in Hs. destruct Hs as [Hb Hs].
    cbn [includes]. rewrite (IH Hs), orb_false_r.
    destruct (starts_with sub (String b s)) eqn:Hp; auto.
    pose proof (prefix_has_char c sub (String b s) Hp Hsub) as H.
    simpl in H. rewrite Hb, Hs in H. discriminate.
Qed.

Lemma string_app_assoc (s t u : string) : (s ++ t) ++ u = s ++ t ++ u.
Proof. induction s as [|a s IH]; simpl; auto. rewrite IH. reflexivity. Qed.

Lemma has_char_app (c : ascii) (s t : string) :
  has_char c (s ++ t) = has_char c s || has_char c t.
Proof. induction s as [|a s IH]; simpl; auto. rewrite IH. apply orb_assoc. Qed.

Lemma uint_text_digits (d : Decimal.uint) :
  all_chars digit_or_minus (NilEmpty.string_of_uint d) = true.
Proof. induction d; simpl; auto. Qed.

Lemma String_number_digits (n : Z) : all_chars digit_or_minus (String_number n) = true.
Proof.
  unfold String_number, NilZero.string_of_int, NilZero.string_of_uint.
  destruct (Z.to_int n) as [d|d].
  - pose proof (uint_text_digits d) as H. destruct d; [reflexivity | exact H ..].
  - pose proof (uint_text_digits d) as H. cbn [all_chars].
    destruct d; [reflexivity | exact H ..].
Qed.

Lemma urlencode_digits (s : string) :
  all_chars digit_or_minus s = true -> urlencode s = s.
Proof.
  induction s as [|a s IH]; simpl; auto. intros H.
  apply andb_true_iff in H. destruct H as [Ha Hs]. rewrite (IH Hs).
  unfold urlencode_char. unfold digit_or_minus in Ha.
  destruct (N_of_ascii a =? 45)%N eqn:E45.
  - rewrite !orb_true_r. simpl. reflexivity.
  - simpl in Ha. rewrite Ha. rewrite !orb_true_r. simpl. reflexivity.
Qed.

Lemma digits_lack_m (s : string) :
  all_chars digit_or_minus s = true -> has_char "m" s = false.
Proof.
  induction s as [|a s IH]; simpl; auto. intros H.
  apply andb_true_iff in H. destruct H as [Ha Hs]. rewrite (IH Hs), orb_false_r.
  destruct (ascii_dec a "m") as [->|Hne].
  - discriminate Ha.
  - apply Ascii.eqb_neq. exact Hne.
Qed.

Section ClientFacts.

Context {E : Type} {ambient : Ambient E} {bs58 : Bs58} {nacl : Nacl}.

Lemma requireToken_falsy (this : LimenClient E) (w : World E) :
  truthy (store w) = false -> requireToken this w = (Throws unauthenticated, w).
Proof.
  intros H. unfold requireToken, bind, getToken, store_getToken. rewrite H. reflexivity.
Qed.

Lemma requireToken_truthy (this : LimenClient E) (w : World E) :
  truthy (store w) = true -> requireToken this w = (Returns (store w), w).
Proof.
  intros H. unfold requireToken, bind, getToken, store_getToken. rewrite H. reflexivity.
Qed.

Lemma authorizedFetch_falsy (this : LimenClient E) (path : string) (init : FetchInit)
    (w : World E) :
  truthy (store w) = false -> authorizedFetch this path init w = (Throws unauthenticated, w).
Proof.
  intros H. unfold authorizedFetch, bind. rewrite (requireToken_falsy this w H). reflexivity.
Qed.

Lemma getHistory_falsy (this : LimenClient E) (options : HistoryQueryOptions) (w : World E) :
  truthy (store w) = false -> getHistory this options w = (Throws unauthenticated, w).
Proof.
  intros H. unfold getHistory, bind. rewrite (authorizedFetch_falsy _ _ _ _ H). reflexivity.
Qed.

Lemma requestSignal_falsy (this : LimenClient E) (pc : PaymentClient E)
    (options : SignalRequestOptions) (w : World E) :
  paymentClient this = Some pc -> truthy (store w) = false ->
  requestSignal this options w = (Throws unauthenticated, w).
Proof.
  intros Hpc H. unfold requestSignal. rewrite Hpc. unfold bind.
  rewrite (requireToken_falsy this w H). reflexivity.
Qed.

Lemma authorizedFetch_truthy (this : LimenClient E) (path : string) (init : FetchInit)
    (w : World E) :
  truthy (store w) = true ->
  let u := baseUrl this ++ path in
  let req := authorizedRequest (store w) init in
  let o := fst (fetchFn this u req (env w)) in
  let e' := snd (fetchFn this u req (env w)) in
  authorizedFetch this path init w
  = authorizedVerdict o (mkWorld (store w) e' (trace w ++ [mkCall Plain u req o])%list).
Proof.
  intros H u req o e'. unfold authorizedFetch, bind.
  rewrite (requireToken_truthy this w H).
  unfold invoke. fold (authorizedRequest (store w) init). fold req. fold u.
  subst o e'. destruct (fetchFn this u req (env w)) as [o e']. simpl.
  destruct o as [res|err]; simpl; auto.
  destruct (status res =? 401)%Z; simpl; auto.
  destruct (status res >=? 400)%Z; simpl; auto.
Qed.

Lemma failsOffline_intro {A : Type} (run : Outcome A * World E) (w : World E) (e : Thrown) :
  run = (Throws e, w) -> failsOffline run w e.
Proof.
  intros ->. unfold failsOffline; simpl. repeat split. apply issued_self.
Qed.

(** C8: with no token in the store, every authorized call ([authorizedFetch]
    on any path, hence [getHistory]; [requestSignal] once a payment client is
    configured) fails with the unauthenticated error, and no transport is
    invoked: the world, trace included, is the one the call started in. *)
Theorem no_token_fails_before_network :
  forall (this : LimenClient E) (w : World E),
    store w = JNull ->
    (forall path init, failsOffline (authorizedFetch this path init w) w unauthenticated)
    /\ (forall options, failsOffline (getHistory this options w) w unauthenticated)
    /\ (forall pc options, paymentClient this = Some pc ->
          failsOffline (requestSignal this options w) w unauthenticated).
Proof.
  intros this w Hs.
  assert (Hf : truthy (store w) = false) by (rewrite Hs; reflexivity).
  split; [|split]; intros; apply failsOffline_intro.
  - apply authorizedFetch_falsy; exact Hf.
  - apply getHistory_falsy; exact Hf.
  - eapply requestSignal_falsy; eauto.
Qed.

(** C9: with the empty string in the store, [getHistory] and [requestSignal]
    (payment client configured) fail with the unauthenticated error without
    any transport call, and their outcome is the one obtained from the same
    world with an absent token. *)
Theorem empty_token_is_no_token :
  forall (this : LimenClient E) (w : World E),
    store w = JStr "" ->
    let absent := mkWorld JNull (env w) (trace w) in
    (forall options,
        failsOffline (getHistory this options w) w unauthenticated
        /\ fst (getHistory this options w) = fst (getHistory this options absent))
    /\ (forall pc options, paymentClient this = Some pc ->
          failsOffline (requestSignal this options w) w unauthenticated
          /\ fst (requestSignal this options w) = fst (requestSignal this options absent)).
Proof.
  intros this w Hs absent.
  assert (Hf : truthy (store w) = false) by (rewrite Hs; reflexivity).
  assert (Ha : truthy (store absent) = false) by reflexivity.
  split.
  - intros options. rewrite (getHistory_falsy this options w Hf).
    rewrite (getHistory_falsy this options absent Ha).
    split; [apply failsOffline_intro|]; reflexivity.
  - intros pc options Hpc. rewrite (requestSignal_falsy this pc options w Hpc Hf).
    rewrite (requestSignal_falsy this pc options absent Hpc Ha).
    split; [apply failsOffline_intro|]; reflexivity.
Qed.

(** Every branch of [authorizedFetch] taken with a token logs exactly one call. *)
Lemma authorizedVerdict_trace (o : Outcome ResponseLike) (w1 : World E) :
  trace (snd (authorizedVerdict o w1)) = trace w1
  /\ env (snd (authorizedVerdict o w1)) = env w1.
Proof.
  unfold authorizedVerdict. destruct o as [res|e]; simpl; auto.
  destruct (status res =? 401)%Z; simpl; auto.
  destruct (status res >=? 400)%Z; simpl; auto.
  destruct (text res); simpl; auto.
Qed.

Lemma authorizedVerdict_401 (res : ResponseLike) (w1 : World E) :
  status res = 401%Z ->
  authorizedVerdict (Returns res) w1 = (Throws authExpired, mkWorld JNull (env w1) (trace w1)).
Proof. intros H. unfold authorizedVerdict. rewrite H. reflexivity. Qed.

Lemma getHistory_after_fetch (this : LimenClient E) (options : HistoryQueryOptions)
    (w : World E) :
  getHistory this options w
  = match authorizedFetch this (historyPath options) (mkFetchInit None None) w with
    | (Returns res, w') => (historyOf res, w')
    | (Throws e, w') => (Throws e, w')
    end.
Proof.
  unfold getHistory, bind.
  destruct (authorizedFetch this (historyPath options) (mkFetchInit None None) w)
    as [[res|e] w']; auto.
  unfold historyOf, parseJson, fetchJson, try_catch, settle, bind, throw.
  destruct (json res) as [data|e]; simpl.
  - destruct (getProp data "history"); simpl; auto.
    destruct (getProp data "pagination"); simpl; auto.
  - destruct (text res); reflexivity.
Qed.

Lemma getHistory_world (this : LimenClient E) (options : HistoryQueryOptions) (w : World E) :
  snd (getHistory this options w)
  = snd (authorizedFetch this (historyPath options) (mkFetchInit None None) w).
Proof.
  rewrite getHistory_after_fetch.
  destruct (authorizedFetch this (historyPath options) (mkFetchInit None None) w)
    as [[res|e] w']; reflexivity.
Qed.

Lemma authorizedFetch_issued (this : LimenClient E) (path : string) (init : FetchInit)
    (w : World E) :
  issued w (snd (authorizedFetch this path init w))
  = if truthy (store w)
    then [mkCall Plain (baseUrl this ++ path) (authorizedRequest (store w) init)
            (fst (fetchFn this (baseUrl this ++ path) (authorizedRequest (store w) init)
                    (env w)))]
    else [].
Proof.
  destruct (truthy (store w)) eqn:H.
  - rewrite (authorizedFetch_truthy this path init w H). cbv zeta.
    match goal with |- issued w (snd (authorizedVerdict ?o ?w1)) = _ =>
      destruct (authorizedVerdict_trace o w1) as [Ht _];
      unfold issued; rewrite Ht; simpl; apply skipn_length_app
    end.
  - rewrite (authorizedFetch_falsy this path init w H). apply issued_self.
Qed.

Lemma getHistory_issued (this : LimenClient E) (options : HistoryQueryOptions) (w : World E) :
  issued w (snd (getHistory this options w))
  = if truthy (store w) then [historyCall this options w] else [].
Proof. rewrite getHistory_world. apply authorizedFetch_issued. Qed.

Lemma requestSignal_truthy (this : LimenClient E) (pc : PaymentClient E)
    (options : SignalRequestOptions) (w : World E) :
  paymentClient this = Some pc ->
  truthy (store w) = true ->
  let c := signalCall this pc options w in
  let e' := snd (pay_fetch pc (url c) (init c) (env w)) in
  requestSignal this options w
  = signalVerdict (answer c) (mkWorld (store w) e' (trace w ++ [c])%list).
Proof.
  intros Hpc H c e'. unfold requestSignal. rewrite Hpc. unfold bind.
  rewrite (requireToken_truthy this w H).
  unfold invoke. subst c e'.
  cbv beta iota zeta delta [signalCall signalRequest url init answer].
  destruct (pay_fetch pc _ _ (env w)) as [o e']. simpl.
  destruct o as [res|err]; simpl; auto.
  destruct (status res =? 401)%Z; simpl; auto.
  destruct (status res =? 402)%Z; simpl; auto.
  destruct (status res >=? 400)%Z; simpl; auto.
Qed.

Lemma signalVerdict_trace (o : Outcome ResponseLike) (w1 : World E) :
  trace (snd (signalVerdict o w1)) = trace w1.
Proof.
  unfold signalVerdict. destruct o as [res|e]; simpl; auto.
  destruct (status res =? 401)%Z; simpl; auto.
  destruct (status res =? 402)%Z; simpl; auto.
  destruct (status res >=? 400)%Z; simpl; auto.
  - destruct (text res); simpl; auto.
  - destruct (json res); simpl; auto. destruct (text res); simpl; auto.
Qed.

Lemma requestSignal_issued (this : LimenClient E) (options : SignalRequestOptions)
    (w : World E) :
  issued w (snd (requestSignal this options w))
  = match paymentClient this with
    | Some pc => if truthy (store w) then [signalCall this pc options w] else []
    | None => []
    end.
Proof.
  destruct (paymentClient this) as [pc|] eqn:Hpc.
  - destruct (truthy (store w)) eqn:H.
    + rewrite (requestSignal_truthy this pc options w Hpc H). cbv zeta.
      unfold issued. rewrite signalVerdict_trace. simpl. apply skipn_length_app.
    + rewrite (requestSignal_falsy this pc options w Hpc H). apply issued_self.
  - unfold requestSignal. rewrite Hpc. apply issued_self.
Qed.

(** C1: when a token is stored and the transport of an authorized call
    ([getHistory] through [fetchFn], [requestSignal] through the payment
    client) returns a response of status 401, the call fails with the
    auth-expired error, the world in which that error is delivered already has
    the token store cleared, and reading the store then gives absent. *)
Theorem status_401_clears_token :
  forall (this : LimenClient E) (w : World E) (c : NetCall) (res : ResponseLike),
    store w <> JNull ->
    answer c = Returns res ->
    status res = 401%Z ->
    (forall options,
        In c (issued w (snd (getHistory this options w))) ->
        fst (getHistory this options w) = Throws authExpired
        /\ store (snd (getHistory this options w)) = JNull
        /\ fst (getToken this (snd (getHistory this options w))) = Returns JNull)
    /\ (forall options,
        In c (issued w (snd (requestSignal this options w))) ->
        fst (requestSignal this options w) = Throws authExpired
        /\ store (snd (requestSignal this options w)) = JNull
        /\ fst (getToken this (snd (requestSignal this options w))) = Returns JNull).
Proof.
  intros this w c res _ Hc H401. split; intros options Hin.
  - rewrite getHistory_issued in Hin.
    destruct (truthy (store w)) eqn:Ht; [|contradiction].
    destruct Hin as [<-|[]]. unfold historyCall in Hc. simpl in Hc.
    rewrite getHistory_after_fetch.
    rewrite (authorizedFetch_truthy this _ _ w Ht). cbv zeta.
    rewrite Hc. rewrite (authorizedVerdict_401 res _ H401). simpl. auto.
  - rewrite requestSignal_issued in Hin.
    destruct (paymentClient this) as [pc|] eqn:Hpc; [|contradiction].
    destruct (truthy (store w)) eqn:Ht; [|contradiction].
    destruct Hin as [<-|[]].
    rewrite (requestSignal_truthy this pc options w Hpc Ht). cbv zeta.
    rewrite Hc. unfold signalVerdict. rewrite H401. simpl. auto.
Qed.

Lemma historyQuery_all (options : HistoryQueryOptions) :
  all options = Some true ->
  historyParams options = [("all", "true")] /\ historyQuery options = "all=true"
  \/ exists n, historyParams options = [("all", "true"); ("page", String_number n)]
               /\ historyQuery options = "all=true&page=" ++ String_number n.
Proof.
  intros Hall. unfold historyQuery, historyParams. rewrite Hall.
  destruct (page options) as [n|]; [|left; split; reflexivity].
  destruct (n =? 0)%Z; [left; split; reflexivity|].
  right. exists n. split; [reflexivity|].
  cbn -[String_number]. rewrite (urlencode_digits _ (String_number_digits n)). reflexivity.
Qed.

(** C5: when [options.all] is true the parameters of [getHistory] hold
    [all=true] and no [limit], whatever [options.limit] is; the query string
    contains the text [all=true] and nowhere the text [limit]; and that query
    is the one sent, after [/api/history?]. *)
Theorem all_suppresses_limit :
  forall (options : HistoryQueryOptions),
    all options = Some true ->
    In ("all", "true") (historyParams options)
    /\ ~ In "limit" (map fst (historyParams options))
    /\ includes "all=true" (historyQuery options) = true
    /\ includes "limit" (historyQuery options) = false
    /\ (forall (this : LimenClient E) (w : World E) (c : NetCall),
          In c (issued w (snd (getHistory this options w))) ->
          url c = baseUrl this ++ "/api/history?" ++ historyQuery options).
Proof.
  intros options Hall.
  assert (Hq : starts_with "all=true" (historyQuery options) = true
               /\ has_char "m" (historyQuery options) = false).
  { destruct (historyQuery_all options Hall) as [[_ ->]|[n [_ ->]]]; split; try reflexivity.
    rewrite has_char_app, (digits_lack_m _ (String_number_digits n)). reflexivity. }
  destruct Hq as [Hpre Hm].
  assert (Hne : (historyQuery options =? "") = false).
  { destruct (historyQuery_all options Hall) as [[_ ->]|[n [_ ->]]]; reflexivity. }
  split; [|split; [|split; [|split]]].
  - destruct (historyQuery_all options Hall) as [[-> _]|[n [-> _]]]; simpl; auto.
  - destruct (historyQuery_all options Hall) as [[-> _]|[n [-> _]]]; simpl;
      intuition discriminate.
  - destruct (historyQuery options); cbn [includes]; rewrite Hpre; reflexivity.
  - apply (includes_needs_char "m"); [reflexivity | exact Hm].
  - intros this w c Hin. rewrite getHistory_issued in Hin.
    destruct (truthy (store w)); [|contradiction].
    destruct Hin as [<-|[]]. unfold historyCall, historyPath. cbn [url].
    rewrite Hne. reflexivity.
Qed.

(** C2, as the code has it: the one request of a [getHistory] call goes
    through the plain transport to [baseUrl] followed by [/api/history] and
    the optional query, carries no body, and its method is the default of
    [authorizedFetch], POST: [getHistory] passes no method. *)
Theorem getHistory_request_is_post :
  forall (this : LimenClient E) (options : HistoryQueryOptions) (w : World E) (c : NetCall),
    In c (issued w (snd (getHistory this options w))) ->
    issued w (snd (getHistory this options w)) = [c]
    /\ via c = Plain
    /\ url c = baseUrl this ++ historyPath options
    /\ starts_with "/api/history" (historyPath options) = true
    /\ method (init c) = Some "POST"
    /\ body (init c) = None.
Proof.
  intros this options w c Hin. rewrite getHistory_issued in *.
  destruct (truthy (store w)); [|contradiction].
  destruct Hin as [<-|[]]. unfold historyCall, historyPath.
  split; [reflexivity|]. split; [reflexivity|]. split; [reflexivity|].
  split; [|split; reflexivity]. reflexivity.
Qed.

Lemma historyOf_filled (res : ResponseLike) (r : HistoryListResponse) :
  historyOf res = Returns r -> isArray (history r) = true /\ pagination r <> JUndefined.
Proof.
  unfold historyOf. destruct (json res) as [data|e].
  - destruct (getProp data "history") as [h|]; [|discriminate].
    destruct (getProp data "pagination") as [p|]; [|discriminate].
    intros [= <-]. simpl. split.
    + destruct h; reflexivity.
    + destruct p; discriminate.
  - destruct (text res); discriminate.
Qed.

Lemma historyOf_bare_object (res : ResponseLike) (fields : list (string * JsValue)) :
  json res = Returns (JObj fields) ->
  isArray (lookup "history" fields) = false ->
  lookup "pagination" fields = JUndefined ->
  historyOf res = Returns (mkHistoryListResponse (JArr []) JNull).
Proof.
  intros Hj Hh Hp. unfold historyOf. rewrite Hj. cbn [getProp]. rewrite Hh, Hp. reflexivity.
Qed.

(** C6: when the response body of a [getHistory] call is a JSON object whose
    [history] is missing or not an array and whose [pagination] is missing, the
    call, which returns as soon as the status is below 400, returns exactly
    [{history: [], pagination: null}] and nothing else; and whatever the body,
    a returned result has an array for [history] and a [pagination] that is not
    [undefined]. *)
Theorem bare_history_body_is_filled :
  (forall (this : LimenClient E) (options : HistoryQueryOptions) (w : World E)
          (c : NetCall) (res : ResponseLike) (fields : list (string * JsValue)),
      In c (issued w (snd (getHistory this options w))) ->
      answer c = Returns res ->
      json res = Returns (JObj fields) ->
      isArray (lookup "history" fields) = false ->
      lookup "pagination" fields = JUndefined ->
      ((status res < 400)%Z ->
       fst (getHistory this options w) = Returns (mkHistoryListResponse (JArr []) JNull))
      /\ (forall r, fst (getHistory this options w) = Returns r ->
                    r = mkHistoryListResponse (JArr []) JNull))
  /\ (forall (this : LimenClient E) (options : HistoryQueryOptions) (w : World E)
             (r : HistoryListResponse),
        fst (getHistory this options w) = Returns r ->
        isArray (history r) = true /\ pagination r <> JUndefined).
Proof.
  split.
  - intros this options w c res fields Hin Hc Hj Hh Hp.
    rewrite getHistory_issued in Hin.
    destruct (truthy (store w)) eqn:Ht; [|contradiction].
    destruct Hin as [<-|[]]. unfold historyCall in Hc. cbn [answer] in Hc.
    rewrite getHistory_after_fetch.
    rewrite (authorizedFetch_truthy this _ _ w Ht). cbv zeta. rewrite Hc.
    unfold authorizedVerdict.
    destruct (status res =? 401)%Z eqn:E401.
    { apply Z.eqb_eq in E401. simpl. split; [lia | discriminate]. }
    destruct (status res >=? 400)%Z eqn:E400.
    { apply Z.geb_le in E400. split; [lia|].
      destruct (text res); simpl; discriminate. }
    cbn [fst]. rewrite (historyOf_bare_object res fields Hj Hh Hp).
    split; [reflexivity | intros r [= <-]; reflexivity].
  - intros this options w r. rewrite getHistory_after_fetch.
    destruct (authorizedFetch this (historyPath options) (mkFetchInit None None) w)
      as [[res|e] w']; cbn [fst]; [|discriminate].
    apply historyOf_filled.
Qed.

(** C10: when [options.timeframe] is omitted, the request [requestSignal]
    sends goes to [/api/analyze/signal] and its body is the JSON text of an
    object whose [timeframe] is the string [1d]: the text reads
    [{"ticker":<ticker>,"timeframe":"1d"] and then the metadata, if any. *)
Theorem omitted_timeframe_is_1d :
  forall (this : LimenClient E) (options : SignalRequestOptions) (w : World E) (c : NetCall),
    timeframe options = None ->
    In c (issued w (snd (requestSignal this options w))) ->
    url c = baseUrl this ++ "/api/analyze/signal"
    /\ lookup "timeframe" (signalBody options) = JStr "1d"
    /\ body (init c) = Some (JSON_stringify_object (signalBody options))
    /\ exists rest,
         body (init c)
         = Some ("{" ++ JSON_quote "ticker" ++ ":" ++ JSON_quote (ticker options) ++ ","
                 ++ JSON_quote "timeframe" ++ ":" ++ JSON_quote "1d" ++ rest).
Proof.
  intros this options w c Htf Hin. rewrite requestSignal_issued in Hin.
  destruct (paymentClient this) as [pc|]; [|contradiction].
  destruct (truthy (store w)); [|contradiction].
  destruct Hin as [<-|[]]. unfold signalCall, signalRequest. cbn [url init body].
  split; [reflexivity|]. split; [unfold signalBody; rewrite Htf; reflexivity|].
  split; [reflexivity|].
  unfold JSON_stringify_object, signalBody. rewrite Htf. cbn [JSON_stringify flat_map].
  destruct (JSON_stringify (metadata options)) as [m|].
  - exists ("," ++ JSON_quote "metadata" ++ ":" ++ m ++ "}").
    cbn [join app]. rewrite !string_app_assoc. reflexivity.
  - exists "}". cbn [join app]. rewrite !string_app_assoc. reflexivity.
Qed.

End ClientFacts.

Section AuthFacts.

Context {E : Type} {ambient : Ambient E} {bs58 : Bs58} {nacl : Nacl}.

Lemma fetchJson_run {S : Type} (res : ResponseLike) (s : S) :
  fetchJson res s = (jsonOf res, s).
Proof.
  unfold fetchJson, jsonOf, try_catch, settle, bind, throw.
  destruct (json res); auto. destruct (text res); auto.
Qed.

Lemma fetchChallenge_run (b : string) (f : FetchLike E) (w : World E) :
  let u := b ++ "/api/auth/challenge" in
  let o := fst (f u challengeRequest (env w)) in
  let e' := snd (f u challengeRequest (env w)) in
  fetchChallenge b f w
  = (challengeVerdict o,
     mkWorld (store w) e' (trace w ++ [mkCall Plain u challengeRequest o])%list).
Proof.
  intros u o e'. subst o e'. unfold fetchChallenge, bind, invoke.
  fold challengeRequest. fold u.
  destruct (f u challengeRequest (env w)) as [o e']. cbn [fst snd].
  destruct o as [res|err]; cbn [challengeVerdict]; auto.
  destruct (status res >=? 400)%Z.
  - unfold settle, throw. destruct (text res); reflexivity.
  - apply fetchJson_run.
Qed.

Lemma exchange_run (b wallet signature : string) (challengeToken : JsValue)
    (f : FetchLike E) (w : World E) :
  let u := b ++ "/api/auth" in
  let req := exchangeRequest wallet signature challengeToken in
  let o := fst (f u req (env w)) in
  let e' := snd (f u req (env w)) in
  exchangeSignatureForToken b wallet signature challengeToken f w
  = (match o with Returns res => exchangeVerdict res | Throws e => Throws e end,
     mkWorld (store w) e' (trace w ++ [mkCall Plain u req o])%list).
Proof.
  intros u req o e'. subst o e'. unfold exchangeSignatureForToken, bind, invoke.
  fold (exchangeRequest wallet signature challengeToken). fold req. fold u.
  destruct (f u req (env w)) as [o e']. cbn [fst snd].
  destruct o as [res|err]; auto.
  rewrite fetchJson_run. unfold exchangeVerdict.
  destruct (jsonOf res) as [body|e]; auto.
  destruct (status res >=? 400)%Z.
  - unfold ret, settle, throw, authFailureMessage.
    destruct (getProp body "error") as [error|]; auto.
    destruct (truthy error); reflexivity.
  - unfold ret, settle, throw, authFailureMessage.
    destruct (getProp body "token") as [t|]; auto.
    destruct (truthy t); cbn [negb]; auto.
    destruct (getProp body "error") as [error|]; auto.
    destruct (truthy error); reflexivity.
Qed.

Lemma exchangeVerdict_refused {A : Type} (g : JsValue -> A) (res : ResponseLike) :
  refusedAsCoded
    (match exchangeVerdict res with Returns t => Returns (g t) | Throws e => Throws e end)
    res.
Proof.
  unfold refusedAsCoded, exchangeVerdict, jsonOf. split.
  - intros fields Hj Hor. rewrite Hj. cbn [getProp].
    destruct (status res >=? 400)%Z eqn:E400; [reflexivity|].
    destruct Hor as [Hge|Htok].
    + rewrite Z.geb_leb in E400. apply Z.leb_gt in E400. lia.
    + rewrite Htok. reflexivity.
  - intros e raw Hj Ht. rewrite Hj, Ht. reflexivity.
Qed.

Ltac tidy_issued :=
  cbn [store env trace fst snd];
  repeat rewrite <- app_assoc;
  rewrite ?issued_more, ?issued_same, ?issued_self;
  cbn [app].

Ltac no_post :=
  intros [= <- <-]; tidy_issued;
  first [ contradiction | intros [<-|[]]; discriminate ].

Lemma authenticateWithWallet_exchange (options : WalletAuthOptions E) (w w' : World E)
    (out : Outcome Session) (c : NetCall) (res : ResponseLike) :
  authenticateWithWallet options w = (out, w') ->
  In c (issued w w') ->
  method (init c) = Some "POST" ->
  answer c = Returns res ->
  out = match exchangeVerdict res with
        | Returns t => Returns (mkSession t (address (wa_wallet options)))
        | Throws e => Throws e
        end.
Proof.
  unfold authenticateWithWallet, bind. cbv beta zeta. unfold settle at 1.
  destruct (assertFetch (wa_fetch options)) as [f|e]; [|no_post].
  rewrite fetchChallenge_run. cbv zeta.
  destruct (challengeVerdict _) as [ch|e]; [|no_post].
  unfold settle at 1. destruct (destructureChallenge ch) as [[challenge ct]|e]; [|no_post].
  unfold outside at 1. cbn [env store trace].
  destruct (signMessage (wa_wallet options) (TextEncoder_encode challenge) _)
    as [[sig|e] e2]; [|no_post].
  rewrite exchange_run. cbv zeta. cbn [env store trace].
  match goal with |- context [fst (f ?u ?r e2)] =>
    destruct (f u r e2) as [o e3] end.
  cbn [fst snd].
  destruct o as [res'|e].
  - destruct (exchangeVerdict res') as [t|e] eqn:Hv; unfold ret;
      intros [= <- <-]; tidy_issued;
      (intros [<-|[<-|[]]]; [discriminate|]); intros _ [= <-]; rewrite Hv; reflexivity.
  - intros [= <- <-]; tidy_issued. intros [<-|[<-|[]]]; discriminate.
Qed.

Lemma authenticateWithSecretKey_exchange (options : SecretKeyAuthOptions E)
    (w w' : World E) (out : Outcome Session) (c : NetCall) (res : ResponseLike) :
  authenticateWithSecretKey options w = (out, w') ->
  In c (issued w w') ->
  method (init c) = Some "POST" ->
  answer c = Returns res ->
  exists wallet,
    out = match exchangeVerdict res with
          | Returns t => Returns (mkSession t wallet)
          | Throws e => Throws e
          end.
Proof.
  unfold authenticateWithSecretKey, bind. cbv beta zeta. unfold settle at 1.
  destruct (assertFetch (sk_fetch options)) as [f|e]; [|no_post].
  unfold settle at 1.
  destruct (normalizeSecretKey (sk_secretKey options)) as [key|e]; [|no_post].
  rewrite fetchChallenge_run. cbv zeta.
  destruct (challengeVerdict _) as [ch|e]; [|no_post].
  unfold settle at 1. destruct (destructureChallenge ch) as [[challenge ct]|e]; [|no_post].
  unfold settle at 1.
  destruct (nacl_sign_detached (TextEncoder_encode challenge) (nk_secretKey key))
    as [sig|e]; [|no_post].
  rewrite exchange_run. cbv zeta. cbn [env store trace].
  match goal with |- context [fst (f ?u ?r ?e2)] =>
    destruct (f u r e2) as [o e3] end.
  cbn [fst snd].
  destruct o as [res'|e].
  - destruct (exchangeVerdict res') as [t|e] eqn:Hv; unfold ret;
      intros [= <- <-]; tidy_issued;
      (intros [<-|[<-|[]]]; [discriminate|]); intros _ [= <-]; exists (nk_wallet key);
      rewrite Hv; reflexivity.
  - intros [= <- <-]; tidy_issued. intros [<-|[<-|[]]]; discriminate.
Qed.

Lemma authFailureMessage_text (st : Z) (s : string) :
  s <> "" -> authFailureMessage st (JStr s) = s.
Proof.
  intros H. unfold authFailureMessage. cbn [truthy String_].
  destruct (String.eqb_spec s ""); [contradiction | reflexivity].
Qed.

(** C7, as the code has it: in either authentication path, when the POST to
    [/api/auth] is answered by a JSON object and the status is at least 400
    or the object has no truthy [token], the call fails with the object's
    [error] as message when that is truthy (a non-empty string is used as it
    stands) and with [Auth failed (<status>)] otherwise; when the body is not
    valid JSON the call fails with [Failed to parse JSON response: <raw body>],
    whatever the status. *)
Theorem refused_exchange_message :
  forall (c : NetCall) (res : ResponseLike),
    method (init c) = Some "POST" ->
    answer c = Returns res ->
    (forall (options : WalletAuthOptions E) (w : World E),
        In c (issued w (snd (authenticateWithWallet options w))) ->
        refusedAsCoded (fst (authenticateWithWallet options w)) res)
    /\ (forall (options : SecretKeyAuthOptions E) (w : World E),
        In c (issued w (snd (authenticateWithSecretKey options w))) ->
        refusedAsCoded (fst (authenticateWithSecretKey options w)) res)
    /\ (forall st s, s <> "" -> authFailureMessage st (JStr s) = s)
    /\ (forall st, authFailureMessage st JUndefined
                   = "Auth failed (" ++ String_number st ++ ")").
Proof.
  intros c res Hm Ha. split; [|split; [|split]].
  - intros options w Hin.
    destruct (authenticateWithWallet options w) as [out w'] eqn:Hrun. cbn [fst snd] in *.
    rewrite (authenticateWithWallet_exchange options w w' out c res Hrun Hin Hm Ha).
    apply exchangeVerdict_refused.
  - intros options w Hin.
    destruct (authenticateWithSecretKey options w) as [out w'] eqn:Hrun. cbn [fst snd] in *.
    destruct (authenticateWithSecretKey_exchange options w w' out c res Hrun Hin Hm Ha)
      as [wallet ->].
    apply exchangeVerdict_refused.
  - intros st s. apply authFailureMessage_text.
  - reflexivity.
Qed.

Lemma normalizeSecretKey_wrong_length (raw : RawSecretKey) (kb : bytes) :
  keyBytes raw = Returns kb -> length kb <> 32%nat -> length kb <> 64%nat ->
  normalizeSecretKey (KeyRaw raw) = Throws secretKeyLengthError.
Proof.
  intros Hk H32 H64. unfold normalizeSecretKey. rewrite Hk.
  destruct (Nat.eqb_spec (length kb) 32); [contradiction|].
  destruct (Nat.eqb_spec (length kb) 64); [contradiction|]. reflexivity.
Qed.

(** C4, as the code has it: a secret key given as text, bytes or numbers
    (not a [Keypair]) whose [keyBytes] has a length other than 32 and 64 makes
    [normalizeSecretKey] throw the length error, and [authenticateWithSecretKey]
    then fails in the world it started in, so neither the challenge fetch nor
    the exchange is made: with the length error when a transport is available,
    as it always is through the client method, and with the no-fetch error of
    [assertFetch], which runs first, when there is none.  A [Keypair] is taken
    as it is: [normalizeSecretKey] returns its public key and secret key
    whatever the length of the latter. *)
Theorem wrong_length_key_fails_before_network :
  forall (raw : RawSecretKey) (kb : bytes),
    keyBytes raw = Returns kb ->
    length kb <> 32%nat ->
    length kb <> 64%nat ->
    normalizeSecretKey (KeyRaw raw) = Throws secretKeyLengthError
    /\ (forall (options : SecretKeyAuthOptions E) (w : World E),
          sk_secretKey options = KeyRaw raw ->
          (forall f, assertFetch (sk_fetch options) = Returns f ->
             failsOffline (authenticateWithSecretKey options w) w secretKeyLengthError)
          /\ (sk_fetch options = None -> defaultFetchFn = None ->
              failsOffline (authenticateWithSecretKey options w) w
                (ErrorObj
                   "No fetch implementation available. Provide a custom fetch via the SDK constructor.")))
    /\ (forall (this : LimenClient E) (w : World E),
          failsOffline (client_authenticateWithSecretKey this (KeyRaw raw) w) w
            secretKeyLengthError)
    /\ (forall kp : Keypair,
          normalizeSecretKey (KeyKeypair kp)
          = Returns (mkNormalizedKey (kp_publicKey_toBase58 kp) (kp_secretKey kp))).
Proof.
  intros raw kb Hk H32 H64.
  pose proof (normalizeSecretKey_wrong_length raw kb Hk H32 H64) as Hn.
  split; [exact Hn|]. split; [|split].
  - intros options w Hs. split.
    + intros f Hf. apply failsOffline_intro.
      unfold authenticateWithSecretKey, bind, settle. rewrite Hf, Hs, Hn. reflexivity.
    + intros Hf Hd. apply failsOffline_intro.
      unfold authenticateWithSecretKey, bind, settle, assertFetch. rewrite Hf, Hd.
      reflexivity.
  - intros this w. apply failsOffline_intro.
    unfold client_authenticateWithSecretKey, authenticateWithSecretKey, bind, settle.
    cbn [sk_fetch sk_secretKey assertFetch]. rewrite Hn. reflexivity.
  - intros kp. reflexivity.
Qed.

End AuthFacts.

Section PaymentFacts.

Context {C VT : Type} {web3 : Web3 C} {x402 : X402 C VT}.

Lemma happened_more (w : PayWorld C) (c : C) (l : list PayEvent) :
  happened w (mkPayWorld c (events w ++ l)%list) = l.
Proof. unfold happened; simpl. apply skipn_length_app. Qed.

(** A remediation, however it ends, logs its entry and nothing else. *)
Lemma ensure_events (options : KeypairPaymentClientOptions) (mint : string)
    (w : PayWorld C) :
  events (snd (ensureAssociatedTokenAccount options mint w))
  = (events w ++ [Remediation mint])%list.
Proof.
  unfold ensureAssociatedTokenAccount, bind, note, settle, throw, ret, onChain.
  cbv beta zeta. cbn [chain events].
  destruct (new_PublicKey mint) as [pk|e]; [|reflexivity].
  destruct (getAccountInfo pk (chain w)) as [[[info|]|e] c1]; try reflexivity.
  cbn [chain events].
  destruct (getAssociatedTokenAddress pk _ false _ c1) as [[ata|e] c2]; [|reflexivity].
  cbn [chain events].
  destruct (getAccountInfo ata c2) as [[[ataInfo|]|e] c3]; try reflexivity.
  cbn [chain events].
  destruct (getLatestBlockhash c3) as [[[blockhash height]|e] c4]; [|reflexivity].
  cbn [chain events].
  destruct (signedTransactionBytes _ blockhash _ _) as [raw|e]; [|reflexivity].
  destruct (sendRawTransaction raw _ c4) as [[signature|e] c5]; [|reflexivity].
  cbn [chain events].
  destruct (confirmTransaction signature blockhash height c5) as [[[]|e] c6]; reflexivity.
Qed.

(** The run of the wrapper, case by case. *)
Lemma keypair_fetch_run (options : KeypairPaymentClientOptions) (input : string)
    (init : RequestLike) (w : PayWorld C) :
  let first := baseFetch (baseClientOf options) input init w in
  pay_fetch (createKeypairPaymentClient options) input init w
  = match fst first with
    | Returns res => (Returns res, snd first)
    | Throws err =>
        match mintMatch (errorMessage err) with
        | None => (Throws err, snd first)
        | Some mint =>
            let fixed := ensureAssociatedTokenAccount options mint (snd first) in
            match fst fixed with
            | Throws e => (Throws e, snd fixed)
            | Returns _ => baseFetch (baseClientOf options) input init (snd fixed)
            end
        end
    end.
Proof.
  intros first. subst first. unfold createKeypairPaymentClient. cbn [pay_fetch].
  unfold try_catch.
  destruct (baseFetch (baseClientOf options) input init w) as [[res|err] w1]; cbn [fst snd];
    [reflexivity|].
  destruct (mintMatch (errorMessage err)) as [mint|]; [|reflexivity].
  unfold bind.
  destruct (ensureAssociatedTokenAccount options mint w1) as [[[]|e] w2]; reflexivity.
Qed.

Lemma baseFetch_world (base : PaymentClient C) (input : string) (init : RequestLike)
    (w : PayWorld C) :
  baseFetch base input init w
  = (fst (pay_fetch base input init (chain w)),
     mkPayWorld (snd (pay_fetch base input init (chain w)))
       (events w ++ [BaseFetch input init (fst (pay_fetch base input init (chain w)))])%list).
Proof. unfold baseFetch. destruct (pay_fetch base input init (chain w)); reflexivity. Qed.

Lemma ensure_happened (options : KeypairPaymentClientOptions) (mint : string)
    (w : PayWorld C) (c1 : C) (l : list PayEvent) :
  happened w (snd (ensureAssociatedTokenAccount options mint
                     (mkPayWorld c1 (events w ++ l)%list)))
  = (l ++ [Remediation mint])%list.
Proof.
  unfold happened. rewrite ensure_events. cbn [events].
  rewrite <- app_assoc. apply skipn_length_app.
Qed.

Lemma retry_happened (base : PaymentClient C) (input : string) (init : RequestLike)
    (w w2 : PayWorld C) (l : list PayEvent) :
  happened w w2 = l ->
  (length (events w) <= length (events w2))%nat ->
  happened w (snd (baseFetch base input init w2))
  = (l ++ [BaseFetch input init (fst (pay_fetch base input init (chain w2)))])%list.
Proof.
  intros Hl Hlen. rewrite baseFetch_world. cbn [snd].
  unfold happened in *. cbn [events]. rewrite skipn_app, Hl.
  replace (length (events w) - length (events w2))%nat with 0%nat by lia.
  reflexivity.
Qed.

(** C3, as the code has it.  When the first [baseClient.fetch] throws an error
    whose message matches the missing-account pattern, the wrapper enters
    [ensureAssociatedTokenAccount] exactly once.  If that remediation throws,
    its error is the outcome and the original call is not retried.  If it
    completes, the original call is retried exactly once and the outcome of the
    retry, success or any failure, is the outcome of the call, with no further
    remediation or retry.  And in every call, matching or not, there is at most
    one remediation and at most two fetches. *)
Theorem one_remediation_then_one_retry :
  (forall (options : KeypairPaymentClientOptions) (input : string) (init : RequestLike)
          (w : PayWorld C) (err : Thrown) (mint : string),
      let base := baseClientOf options in
      let fixed :=
        ensureAssociatedTokenAccount options mint (afterFirstFetch options input init w) in
      let run := pay_fetch (createKeypairPaymentClient options) input init w in
      fst (pay_fetch base input init (chain w)) = Throws err ->
      mintMatch (errorMessage err) = Some mint ->
      remediations (happened w (snd run)) = 1%nat
      /\ (forall e, fst fixed = Throws e ->
            fst run = Throws e
            /\ happened w (snd run)
               = [BaseFetch input init (Throws err); Remediation mint])
      /\ (fst fixed = Returns tt ->
            let retry := fst (pay_fetch base input init (chain (snd fixed))) in
            fst run = retry
            /\ happened w (snd run)
               = [BaseFetch input init (Throws err); Remediation mint;
                  BaseFetch input init retry]))
  /\ (forall (options : KeypairPaymentClientOptions) (input : string) (init : RequestLike)
             (w : PayWorld C),
        let run := pay_fetch (createKeypairPaymentClient options) input init w in
        (remediations (happened w (snd run)) <= 1)%nat
        /\ (fetches (happened w (snd run)) <= 2)%nat).
Proof.
  split.
  - intros options input init w err mint base fixed run Herr Hmint.
    subst run fixed. unfold afterFirstFetch. rewrite keypair_fetch_run. cbv zeta.
    rewrite (baseFetch_world (baseClientOf options) input init w). cbn [fst snd].
    fold base. rewrite Herr, Hmint.
    set (w1 := mkPayWorld (snd (pay_fetch base input init (chain w)))
                 (events w ++ [BaseFetch input init (Throws err)])%list).
    pose proof (ensure_happened options mint w
                  (snd (pay_fetch base input init (chain w)))
                  [BaseFetch input init (Throws err)]) as Hfix.
    fold w1 in Hfix. cbn [app] in Hfix.
    assert (Hlen : (length (events w)
                    <= length (events (snd (ensureAssociatedTokenAccount options mint w1))))%nat).
    { rewrite ensure_events. unfold w1. cbn [events]. rewrite !length_app. lia. }
    pose proof (retry_happened base input init w _ _ Hfix Hlen) as Hretry.
    destruct (fst (ensureAssociatedTokenAccount options mint w1)) as [[]|e0] eqn:Hf.
    + rewrite Hretry. cbn [app]. split; [reflexivity|]. split.
      * intros e [=].
      * intros _. split; [|reflexivity]. rewrite baseFetch_world. reflexivity.
    + cbn [fst snd]. rewrite Hfix. split; [reflexivity|]. split.
      * intros e [= <-]. split; reflexivity.
      * intros [=].
  - intros options input init w run. subst run. rewrite keypair_fetch_run. cbv zeta.
    rewrite (baseFetch_world (baseClientOf options) input init w). cbn [fst snd].
    set (base := baseClientOf options).
    destruct (fst (pay_fetch base input init (chain w))) as [res|err].
    + cbn [snd]. rewrite happened_more. cbn. lia.
    + destruct (mintMatch (errorMessage err)) as [mint|].
      * set (w1 := mkPayWorld (snd (pay_fetch base input init (chain w)))
                     (events w ++ [BaseFetch input init (Throws err)])%list).
        pose proof (ensure_happened options mint w
                      (snd (pay_fetch base input init (chain w)))
                      [BaseFetch input init (Throws err)]) as Hfix.
        fold w1 in Hfix. cbn [app] in Hfix.
        assert (Hlen : (length (events w)
                        <= length (events (snd (ensureAssociatedTokenAccount options mint w1))))%nat).
        { rewrite ensure_events. unfold w1. cbn [events]. rewrite !length_app. lia. }
        pose proof (retry_happened base input init w _ _ Hfix Hlen) as Hretry.
        destruct (fst (ensureAssociatedTokenAccount options mint w1)) as [[]|e0].
        -- rewrite Hretry. cbn. lia.
        -- cbn [snd]. rewrite Hfix. cbn. lia.
      * cbn [snd]. rewrite happened_more. cbn. lia.
Qed.

End PaymentFacts.

(** * Worked instances *)

Lemma no_token_fails_before_network_witness :
  store (worldWith JNull) = JNull
  /\ failsOffline (getHistory (clientOn bareBody) sampleHistoryOptions (worldWith JNull))
       (worldWith JNull) unauthenticated
  /\ failsOffline (requestSignal (clientOn bareBody) sampleSignalOptions (worldWith JNull))
       (worldWith JNull) unauthenticated.
Proof.
  destruct (no_token_fails_before_network (clientOn bareBody) (worldWith JNull) eq_refl)
    as [_ [Hh Hs]].
  split; [reflexivity|]. split; [apply Hh | eapply Hs; reflexivity].
Defined.

Lemma empty_token_is_no_token_witness :
  store (worldWith (JStr "")) = JStr ""
  /\ failsOffline (getHistory (clientOn bareBody) sampleHistoryOptions (worldWith (JStr "")))
       (worldWith (JStr "")) unauthenticated
  /\ failsOffline
       (requestSignal (clientOn bareBody) sampleSignalOptions (worldWith (JStr "")))
       (worldWith (JStr "")) unauthenticated.
Proof.
  destruct (empty_token_is_no_token (clientOn bareBody) (worldWith (JStr "")) eq_refl)
    as [Hh Hs].
  split; [reflexivity|]. split.
  - apply (Hh sampleHistoryOptions).
  - eapply (Hs _ sampleSignalOptions). reflexivity.
Defined.

Lemma status_401_clears_token_witness :
  (store (worldWith (JStr "jwt")) <> JNull
   /\ status expired = 401%Z
   /\ In (sampleHistoryCall expired)
        (issued (worldWith (JStr "jwt"))
           (snd (getHistory (clientOn expired) sampleHistoryOptions (worldWith (JStr "jwt")))))
   /\ In (sampleSignalCall expired)
        (issued (worldWith (JStr "jwt"))
           (snd (requestSignal (clientOn expired) sampleSignalOptions
                   (worldWith (JStr "jwt"))))))
  /\ (fst (getHistory (clientOn expired) sampleHistoryOptions (worldWith (JStr "jwt")))
      = Throws authExpired
      /\ store (snd (getHistory (clientOn expired) sampleHistoryOptions
                       (worldWith (JStr "jwt")))) = JNull
      /\ fst (getToken (clientOn expired)
                (snd (getHistory (clientOn expired) sampleHistoryOptions
                        (worldWith (JStr "jwt"))))) = Returns JNull)
  /\ (fst (requestSignal (clientOn expired) sampleSignalOptions (worldWith (JStr "jwt")))
      = Throws authExpired
      /\ store (snd (requestSignal (clientOn expired) sampleSignalOptions
                       (worldWith (JStr "jwt")))) = JNull
      /\ fst (getToken (clientOn expired)
                (snd (requestSignal (clientOn expired) sampleSignalOptions
                        (worldWith (JStr "jwt"))))) = Returns JNull).
Proof.
  assert (Hs : store (worldWith (JStr "jwt")) <> JNull) by discriminate.
  split; [|split].
  - split; [exact Hs|]. split; [reflexivity|]. split; left; reflexivity.
  - apply (proj1 (status_401_clears_token (clientOn expired) (worldWith (JStr "jwt"))
                    (sampleHistoryCall expired) expired Hs eq_refl eq_refl)
             sampleHistoryOptions).
    left; reflexivity.
  - apply (proj2 (status_401_clears_token (clientOn expired) (worldWith (JStr "jwt"))
                    (sampleSignalCall expired) expired Hs eq_refl eq_refl)
             sampleSignalOptions).
    left; reflexivity.
Defined.

Lemma getHistory_request_is_post_witness :
  In (sampleHistoryCall bareBody)
    (issued (worldWith (JStr "jwt"))
       (snd (getHistory (clientOn bareBody) sampleHistoryOptions (worldWith (JStr "jwt")))))
  /\ url (sampleHistoryCall bareBody)
     = baseUrl (clientOn bareBody) ++ historyPath sampleHistoryOptions
  /\ method (init (sampleHistoryCall bareBody)) = Some "POST".
Proof.
  assert (Hin : In (sampleHistoryCall bareBody)
                  (issued (worldWith (JStr "jwt"))
                     (snd (getHistory (clientOn bareBody) sampleHistoryOptions
                             (worldWith (JStr "jwt"))))))
    by (left; reflexivity).
  destruct (getHistory_request_is_post (clientOn bareBody) sampleHistoryOptions
              (worldWith (JStr "jwt")) (sampleHistoryCall bareBody) Hin)
    as [_ [_ [Hu [_ [Hm _]]]]].
  split; [exact Hin|]. split; [exact Hu | exact Hm].
Defined.

(** C2 as stated fails: the request of this [getHistory] call is not a GET. *)
Lemma getHistory_request_is_not_get :
  ~ (forall c : NetCall,
        In c (issued (worldWith (JStr "jwt"))
                (snd (getHistory (clientOn bareBody) sampleHistoryOptions
                        (worldWith (JStr "jwt"))))) ->
        method (init c) = Some "GET").
Proof.
  intros H. specialize (H (sampleHistoryCall bareBody) (or_introl eq_refl)).
  discriminate H.
Qed.

Lemma all_suppresses_limit_witness :
  all sampleHistoryOptions = Some true
  /\ limit sampleHistoryOptions = Some (LimitNumber 20)
  /\ historyQuery sampleHistoryOptions = "all=true"
  /\ includes "limit" (historyQuery sampleHistoryOptions) = false
  /\ url (sampleHistoryCall bareBody)
     = baseUrl (clientOn bareBody) ++ "/api/history?" ++ historyQuery sampleHistoryOptions.
Proof.
  destruct (all_suppresses_limit (E := unit) sampleHistoryOptions eq_refl)
    as [_ [_ [_ [Hno Hurl]]]].
  split; [reflexivity|]. split; [reflexivity|]. split; [reflexivity|].
  split; [exact Hno|].
  apply (Hurl (clientOn bareBody) (worldWith (JStr "jwt"))). left; reflexivity.
Defined.

Lemma bare_history_body_is_filled_witness :
  (In (sampleHistoryCall bareBody)
     (issued (worldWith (JStr "jwt"))
        (snd (getHistory (clientOn bareBody) sampleHistoryOptions (worldWith (JStr "jwt")))))
   /\ json bareBody = Returns (JObj [])
   /\ (status bareBody < 400)%Z)
  /\ fst (getHistory (clientOn bareBody) sampleHistoryOptions (worldWith (JStr "jwt")))
     = Returns (mkHistoryListResponse (JArr []) JNull).
Proof.
  assert (Hin : In (sampleHistoryCall bareBody)
                  (issued (worldWith (JStr "jwt"))
                     (snd (getHistory (clientOn bareBody) sampleHistoryOptions
                             (worldWith (JStr "jwt"))))))
    by (left; reflexivity).
  assert (Hlt : (status bareBody < 400)%Z) by reflexivity.
  split; [split; [exact Hin | split; [reflexivity | exact Hlt]]|].
  apply (proj1 (proj1 bare_history_body_is_filled (clientOn bareBody) sampleHistoryOptions
                  (worldWith (JStr "jwt")) (sampleHistoryCall bareBody) bareBody []
                  Hin eq_refl eq_refl eq_refl eq_refl)).
  exact Hlt.
Defined.

Lemma omitted_timeframe_is_1d_witness :
  (timeframe sampleSignalOptions = None
   /\ In (sampleSignalCall bareBody)
        (issued (worldWith (JStr "jwt"))
           (snd (requestSignal (clientOn bareBody) sampleSignalOptions
                   (worldWith (JStr "jwt"))))))
  /\ body (init (sampleSignalCall bareBody))
     = Some ("{" ++ JSON_quote "ticker" ++ ":" ++ JSON_quote "SOL" ++ ","
             ++ JSON_quote "timeframe" ++ ":" ++ JSON_quote "1d" ++ "}").
Proof.
  assert (Hin : In (sampleSignalCall bareBody)
                  (issued (worldWith (JStr "jwt"))
                     (snd (requestSignal (clientOn bareBody) sampleSignalOptions
                             (worldWith (JStr "jwt"))))))
    by (left; reflexivity).
  split; [split; [reflexivity | exact Hin]|].
  destruct (omitted_timeframe_is_1d (clientOn bareBody) sampleSignalOptions
              (worldWith (JStr "jwt")) (sampleSignalCall bareBody) eq_refl Hin)
    as [_ [_ [Hb _]]].
  rewrite Hb. reflexivity.
Defined.

Lemma wrong_length_key_fails_before_network_witness :
  (keyBytes (bs58 := plainBs58) shortKey
   = Returns [Byte.x01; Byte.x02; Byte.x03; Byte.x04; Byte.x05]
   /\ length [Byte.x01; Byte.x02; Byte.x03; Byte.x04; Byte.x05] <> 32%nat
   /\ length [Byte.x01; Byte.x02; Byte.x03; Byte.x04; Byte.x05] <> 64%nat
   /\ assertFetch (ambient := noAmbientFetch) (sk_fetch sampleKeyOptions)
      = Returns (answering bareBody))
  /\ failsOffline
       (authenticateWithSecretKey (ambient := noAmbientFetch) (bs58 := plainBs58)
          (nacl := plainNacl) sampleKeyOptions (worldWith JNull))
       (worldWith JNull) secretKeyLengthError
  /\ failsOffline
       (client_authenticateWithSecretKey (ambient := noAmbientFetch) (bs58 := plainBs58)
          (nacl := plainNacl) (clientOn bareBody) (KeyRaw shortKey) (worldWith JNull))
       (worldWith JNull) secretKeyLengthError.
Proof.
  assert (H32 : length [Byte.x01; Byte.x02; Byte.x03; Byte.x04; Byte.x05] <> 32%nat)
    by discriminate.
  assert (H64 : length [Byte.x01; Byte.x02; Byte.x03; Byte.x04; Byte.x05] <> 64%nat)
    by discriminate.
  destruct (wrong_length_key_fails_before_network (E := unit) (ambient := noAmbientFetch)
              (bs58 := plainBs58) (nacl := plainNacl) shortKey _ eq_refl H32 H64)
    as [_ [Hauth [Hclient _]]].
  split; [split; [reflexivity | split; [exact H32 | split; [exact H64 | reflexivity]]]|].
  split.
  - apply (proj1 (Hauth sampleKeyOptions (worldWith JNull) eq_refl) (answering bareBody)).
    reflexivity.
  - apply Hclient.
Defined.

(** C4 as stated fails twice.  A [Keypair] whose secret key has five bytes is
    not refused: the challenge is fetched, and the call fails only when
    tweetnacl is asked to sign.  And a five-byte key handed over where no
    transport exists fails with the no-fetch error, not the length error. *)
Lemma short_keypair_reaches_the_network :
  (length (kp_secretKey shortKeypair) <> 32%nat
   /\ length (kp_secretKey shortKeypair) <> 64%nat
   /\ issued (worldWith JNull) (snd shortKeypairRun)
      = [sampleChallengeCall (Returns challengeAnswer)]
   /\ fst shortKeypairRun = Throws (ErrorObj "bad secret key size")
   /\ fst shortKeypairRun <> Throws secretKeyLengthError)
  /\ (fst noTransportRun
      = Throws (ErrorObj
          "No fetch implementation available. Provide a custom fetch via the SDK constructor.")
      /\ fst noTransportRun <> Throws secretKeyLengthError).
Proof.
  split.
  - split; [discriminate|]. split; [discriminate|]. split; [reflexivity|].
    split; [reflexivity | discriminate].
  - split; [reflexivity | discriminate].
Qed.

Lemma refused_exchange_message_witness :
  (method (init (sampleExchangeCall refusal)) = Some "POST"
   /\ In (sampleExchangeCall refusal) (issued (worldWith JNull) (snd (walletRun refusal)))
   /\ (status refusal >= 400)%Z)
  /\ fst (walletRun refusal) = Throws (ErrorObj "wallet not allowed").
Proof.
  assert (Hin : In (sampleExchangeCall refusal)
                  (issued (worldWith JNull) (snd (walletRun refusal))))
    by (right; left; reflexivity).
  assert (Hge : (status refusal >= 400)%Z) by discriminate.
  split; [split; [reflexivity | split; [exact Hin | exact Hge]]|].
  destruct (refused_exchange_message (E := unit) (ambient := noAmbientFetch)
              (bs58 := plainBs58) (nacl := plainNacl)
              (sampleExchangeCall refusal) refusal eq_refl eq_refl)
    as [Hw _].
  destruct (Hw (sampleWalletOptions refusal) (worldWith JNull) Hin) as [Hobj _].
  exact (Hobj [("error", JStr "wallet not allowed")] eq_refl (or_introl Hge)).
Defined.

(** C7 as stated fails: the exchange answers 502 with a body that is not JSON
    and so has no [error] field, yet the message is not [Auth failed (502)]. *)
Lemma unparsable_refusal_is_not_status_coded :
  In (sampleExchangeCall badGateway) (issued (worldWith JNull) (snd (walletRun badGateway)))
  /\ (status badGateway >= 400)%Z
  /\ json badGateway = Throws (ErrorObj "Unexpected token in JSON")
  /\ fst (walletRun badGateway)
     = Throws (ErrorObj "Failed to parse JSON response: Bad Gateway")
  /\ fst (walletRun badGateway) <> Throws (ErrorObj "Auth failed (502)").
Proof.
  split; [right; left; reflexivity|]. split; [discriminate|]. split; [reflexivity|].
  split; [reflexivity | discriminate].
Qed.

Lemma one_remediation_then_one_retry_witness :
  (fst (pay_fetch (baseClientOf (web3 := ledgerWeb3) (x402 := ledgerX402) payerOptions)
          signalUrl emptyRequest (chain unfunded)) = Throws missingAccount
   /\ mintMatch (errorMessage missingAccount) = Some usdcMint)
  /\ remediations (happened unfunded (snd (keypairFetch signalUrl emptyRequest unfunded)))
     = 1%nat
  /\ fst (keypairFetch signalUrl emptyRequest unfunded) = Returns paid
  /\ happened unfunded (snd (keypairFetch signalUrl emptyRequest unfunded))
     = [BaseFetch signalUrl emptyRequest (Throws missingAccount);
        Remediation usdcMint;
        BaseFetch signalUrl emptyRequest (Returns paid)].
Proof.
  assert (Hm : mintMatch (errorMessage missingAccount) = Some usdcMint) by reflexivity.
  destruct (proj1 (one_remediation_then_one_retry (web3 := ledgerWeb3) (x402 := ledgerX402))
              payerOptions signalUrl emptyRequest unfunded missingAccount usdcMint
              eq_refl Hm)
    as [Hone [_ Hretry]].
  split; [split; [reflexivity | exact Hm]|].
  split; [exact Hone|].
  destruct (Hretry eq_refl) as [Hout Hev].
  split; [exact Hout | exact Hev].
Defined.

(** C3 as stated fails: the first fetch throws the missing-account error, the
    remediation finds no mint and throws, and the original call is never
    retried: one fetch in all, not two. *)
Lemma failed_remediation_is_not_retried :
  fst (pay_fetch (baseClientOf (web3 := ledgerWeb3) (x402 := ledgerX402) payerOptions)
         signalUrl emptyRequest (chain noMint)) = Throws missingAccount
  /\ mintMatch (errorMessage missingAccount) = Some usdcMint
  /\ happened noMint (snd (keypairFetch signalUrl emptyRequest noMint))
     = [BaseFetch signalUrl emptyRequest (Throws missingAccount); Remediation usdcMint]
  /\ fetches (happened noMint (snd (keypairFetch signalUrl emptyRequest noMint))) <> 2%nat
  /\ fst (keypairFetch signalUrl emptyRequest noMint)
     = Throws (ErrorObj ("Token mint " ++ usdcMint ++ " does not exist on solana")).
Proof.
  split; [reflexivity|]. split; [reflexivity|]. split; [reflexivity|].
  split; [discriminate | reflexivity].
Qed.

(** * The model on concrete values *)

Example mintMatch_takes_at_most_44 :
  mintMatch ("x402: no Associated Token Account for " ++ usdcMint ++ "1111 found")
  = Some usdcMint.
Proof. reflexivity. Qed.

Example mintMatch_needs_32 :
  mintMatch "Associated Token Account for EPjFWdd5AufqSSqeM2qN is missing" = None.
Proof. reflexivity. Qed.

Example mintMatch_stops_at_foreign_char :
  mintMatch "Associated Token Account for EPjFWdd5AufqSSqeM2qN1xzybapC8G4wE0GkZwyTDt1v"
  = Some "EPjFWdd5AufqSSqeM2qN1xzybapC8G4wE".
Proof. reflexivity. Qed.

Example strip_trailing_slash_once :
  strip_trailing_slash "https://api.limen.trade//" = "https://api.limen.trade/".
Proof. reflexivity. Qed.

Example history_query_limit_and_page :
  historyQuery (mkHistoryQueryOptions (Some 2%Z) (Some (LimitNumber 20)) None)
  = "limit=20&page=2".
Proof. reflexivity. Qed.

Example history_query_zero_is_unset :
  historyPath (mkHistoryQueryOptions (Some 0%Z) (Some (LimitNumber 0)) (Some false))
  = "/api/history".
Proof. reflexivity. Qed.

Example history_query_limit_all :
  historyQuery (mkHistoryQueryOptions None (Some LimitAll) None) = "limit=all".
Proof. reflexivity. Qed.

Example stringify_skips_undefined :
  JSON_stringify (JObj [("a", JUndefined); ("b", JArr [JUndefined; JNum 1]); ("c", JStr "x")])
  = Some ("{" ++ JSON_quote "b" ++ ":[null,1]," ++ JSON_quote "c" ++ ":" ++ JSON_quote "x"
          ++ "}").
Proof. reflexivity. Qed.

Example params_set_replaces :
  params_set "page" "3" [("page", "1"); ("all", "true"); ("page", "2")]
  = [("page", "3"); ("all", "true")].
Proof. reflexivity. Qed.

Example urlencode_reserved : urlencode "1e+21 &" = "1e%2B21+%26".
Proof. reflexivity. Qed.

Example healthy_payment_needs_no_remediation :
  happened (mkPayWorld (mkLedger true true) [])
    (snd (keypairFetch signalUrl emptyRequest (mkPayWorld (mkLedger true true) [])))
  = [BaseFetch signalUrl emptyRequest (Returns paid)].
Proof. reflexivity. Qed.

Example wallet_login_returns_token :
  fst (walletRun (jsonResponse 200 (JObj [("token", JStr "jwt")])))
  = Returns (mkSession (JStr "jwt") "9xQeWvG816bUx9EPjHmaT23yvVM2ZWbrrpZb9PusVFin").
Proof. reflexivity. Qed.

(** * Further properties of the client *)

Section MoreClientFacts.

Context {E : Type} {ambient : Ambient E} {bs58 : Bs58} {nacl : Nacl}.

Lemma authorizedVerdict_store (o : Outcome ResponseLike) (w1 : World E) :
  (forall res, o = Returns res -> status res <> 401%Z) ->
  store (snd (authorizedVerdict o w1)) = store w1.
Proof.
  intros H. unfold authorizedVerdict. destruct o as [res|e]; [|reflexivity].
  destruct (Z.eqb_spec (status res) 401) as [Heq|_].
  - exfalso. exact (H res eq_refl Heq).
  - destruct (status res >=? 400)%Z; [destruct (text res)|]; reflexivity.
Qed.

Lemma signalVerdict_store (o : Outcome ResponseLike) (w1 : World E) :
  (forall res, o = Returns res -> status res <> 401%Z) ->
  store (snd (signalVerdict o w1)) = store w1.
Proof.
  intros H. unfold signalVerdict. destruct o as [res|e]; [|reflexivity].
  destruct (Z.eqb_spec (status res) 401) as [Heq|_].
  - exfalso. exact (H res eq_refl Heq).
  - destruct (status res =? 402)%Z; [reflexivity|].
    destruct (status res >=? 400)%Z; [destruct (text res); reflexivity|].
    destruct (json res); [reflexivity|]. destruct (text res); reflexivity.
Qed.

(** X1: only a 401 touches the token.  If no transport answer of a
    [getHistory] or [requestSignal] call has status 401 (the call may make no
    request, the transport may throw, the status may be any other), the token
    store after the call is the store before it. *)
Theorem token_kept_unless_401 :
  forall (this : LimenClient E) (w : World E),
    (forall options,
        (forall c res, In c (issued w (snd (getHistory this options w))) ->
                       answer c = Returns res -> status res <> 401%Z) ->
        store (snd (getHistory this options w)) = store w)
    /\ (forall options,
        (forall c res, In c (issued w (snd (requestSignal this options w))) ->
                       answer c = Returns res -> status res <> 401%Z) ->
        store (snd (requestSignal this options w)) = store w).
Proof.
  intros this w. split; intros options H.
  - rewrite getHistory_issued in H. rewrite getHistory_world.
    destruct (truthy (store w)) eqn:Ht.
    + rewrite (authorizedFetch_truthy this _ _ w Ht). cbv zeta.
      rewrite authorizedVerdict_store; [reflexivity|].
      intros res Ho. apply (H (historyCall this options w) res); [left; reflexivity|].
      exact Ho.
    + rewrite (authorizedFetch_falsy this _ _ w Ht). reflexivity.
  - rewrite requestSignal_issued in H.
    destruct (paymentClient this) as [pc|] eqn:Hpc.
    + destruct (truthy (store w)) eqn:Ht.
      * rewrite (requestSignal_truthy this pc options w Hpc Ht). cbv zeta.
        rewrite signalVerdict_store; [reflexivity|].
        intros res Ho. apply (H (signalCall this pc options w) res); [left; reflexivity|].
        exact Ho.
      * rewrite (requestSignal_falsy this pc options w Hpc Ht). reflexivity.
    + unfold requestSignal. rewrite Hpc. reflexivity.
Qed.

Lemma getHistory_truthy_run (this : LimenClient E) (options : HistoryQueryOptions)
    (w : World E) :
  truthy (store w) = true ->
  let c := historyCall this options w in
  let w1 := mkWorld (store w) (snd (fetchFn this (url c) (init c) (env w)))
              (trace w ++ [c])%list in
  getHistory this options w
  = match authorizedVerdict (answer c) w1 with
    | (Returns res, w') => (historyOf res, w')
    | (Throws e, w') => (Throws e, w')
    end.
Proof.
  intros Ht c w1. rewrite getHistory_after_fetch.
  rewrite (authorizedFetch_truthy this _ _ w Ht). reflexivity.
Qed.

(** X2: how [getHistory] fails once its request is made.  An exception of the
    transport propagates as it is; a status of 400 or more other than 401
    gives [Request failed (<status>): <body text>]; below 400, a body that is
    not JSON gives [Failed to parse JSON response: <body text>], and if the
    text cannot be read either, the error of that read. *)
Theorem getHistory_failures :
  forall (this : LimenClient E) (options : HistoryQueryOptions) (w : World E) (c : NetCall),
    In c (issued w (snd (getHistory this options w))) ->
    (forall e, answer c = Throws e -> fst (getHistory this options w) = Throws e)
    /\ (forall res t,
          answer c = Returns res -> (status res >= 400)%Z -> status res <> 401%Z ->
          text res = Returns t ->
          fst (getHistory this options w)
          = Throws (ErrorObj ("Request failed (" ++ String_number (status res) ++ "): " ++ t)))
    /\ (forall res e t,
          answer c = Returns res -> (status res < 400)%Z ->
          json res = Throws e -> text res = Returns t ->
          fst (getHistory this options w)
          = Throws (ErrorObj ("Failed to parse JSON response: " ++ t)))
    /\ (forall res e e',
          answer c = Returns res -> (status res < 400)%Z ->
          json res = Throws e -> text res = Throws e' ->
          fst (getHistory this options w) = Throws e').
Proof.
  intros this options w c Hin. rewrite getHistory_issued in Hin.
  destruct (truthy (store w)) eqn:Ht; [|contradiction].
  destruct Hin as [<-|[]]. rewrite (getHistory_truthy_run this options w Ht). cbv zeta.
  split; [|split; [|split]].
  - intros e ->. reflexivity.
  - intros res t -> Hge Hne Hx. unfold authorizedVerdict.
    destruct (Z.eqb_spec (status res) 401); [contradiction|].
    destruct (Z.geb_spec (status res) 400); [|lia]. rewrite Hx. reflexivity.
  - intros res e t -> Hlt Hj Hx. unfold authorizedVerdict.
    destruct (Z.eqb_spec (status res) 401); [lia|].
    destruct (Z.geb_spec (status res) 400); [lia|].
    unfold historyOf. rewrite Hj, Hx. reflexivity.
  - intros res e e' -> Hlt Hj Hx. unfold authorizedVerdict.
    destruct (Z.eqb_spec (status res) 401); [lia|].
    destruct (Z.geb_spec (status res) 400); [lia|].
    unfold historyOf. rewrite Hj, Hx. reflexivity.
Qed.

(** X3: how [requestSignal] fails and succeeds.  Without a payment client it
    throws the configuration error in the world it started in, token or not.
    With one, once the request is made: an exception of the payment client
    propagates; status 402 gives the payment-required error; any other status
    of 400 or more except 401 gives [Signal request failed (<status>): <text>];
    below 400 a JSON body is returned as it is. *)
Theorem requestSignal_outcomes :
  forall (this : LimenClient E) (options : SignalRequestOptions) (w : World E),
    (paymentClient this = None ->
     failsOffline (requestSignal this options w) w noPaymentClient)
    /\ (forall c, In c (issued w (snd (requestSignal this options w))) ->
        (forall e, answer c = Throws e -> fst (requestSignal this options w) = Throws e)
        /\ (forall res, answer c = Returns res -> status res = 402%Z ->
              fst (requestSignal this options w) = Throws paymentRequired)
        /\ (forall res t,
              answer c = Returns res -> (status res >= 400)%Z ->
              status res <> 401%Z -> status res <> 402%Z -> text res = Returns t ->
              fst (requestSignal this options w)
              = Throws (ErrorObj ("Signal request failed (" ++ String_number (status res)
                                  ++ "): " ++ t)))
        /\ (forall res v,
              answer c = Returns res -> (status res < 400)%Z -> json res = Returns v ->
              fst (requestSignal this options w) = Returns v)).
Proof.
  intros this options w. split.
  - intros Hpc. apply failsOffline_intro. unfold requestSignal. rewrite Hpc. reflexivity.
  - intros c Hin. rewrite requestSignal_issued in Hin.
    destruct (paymentClient this) as [pc|] eqn:Hpc; [|contradiction].
    destruct (truthy (store w)) eqn:Ht; [|contradiction].
    destruct Hin as [<-|[]]. rewrite (requestSignal_truthy this pc options w Hpc Ht).
    cbv zeta. unfold signalVerdict. split; [|split; [|split]].
    + intros e ->. reflexivity.
    + intros res -> H402. rewrite H402. reflexivity.
    + intros res t -> Hge H401 H402 Hx.
      destruct (Z.eqb_spec (status res) 401); [contradiction|].
      destruct (Z.eqb_spec (status res) 402); [contradiction|].
      destruct (Z.geb_spec (status res) 400); [|lia]. rewrite Hx. reflexivity.
    + intros res v -> Hlt Hj.
      destruct (Z.eqb_spec (status res) 401); [lia|].
      destruct (Z.eqb_spec (status res) 402); [lia|].
      destruct (Z.geb_spec (status res) 400); [lia|]. rewrite Hj. reflexivity.
Qed.

(** X4: a request is only ever sent with a truthy token, and carries it as
    [Bearer].  [authorizedFetch] sends [Authorization] first and
    [Content-Type: application/json] only with a non-empty body, the method
    given or POST, and the body as given; [requestSignal] makes its one call
    through the payment client, never the plain transport, as a POST with
    both headers. *)
Theorem requests_carry_the_token :
  forall (this : LimenClient E) (w : World E),
    (forall path given c,
        In c (issued w (snd (authorizedFetch this path given w))) ->
        truthy (store w) = true
        /\ via c = Plain
        /\ url c = baseUrl this ++ path
        /\ method (init c) = Some (match init_method given with
                                  | Some m => m
                                  | None => "POST"
                                  end)
        /\ body (init c) = init_body given
        /\ headers (init c)
           = Some (("Authorization", "Bearer " ++ String_ (store w))
                     :: (if string_truthy (init_body given)
                         then [("Content-Type", "application/json")] else [])))
    /\ (forall options c,
        In c (issued w (snd (requestSignal this options w))) ->
        truthy (store w) = true
        /\ issued w (snd (requestSignal this options w)) = [c]
        /\ via c = Paid
        /\ method (init c) = Some "POST"
        /\ headers (init c)
           = Some [("Content-Type", "application/json");
                   ("Authorization", "Bearer " ++ String_ (store w))]).
Proof.
  intros this w. split.
  - intros path given c Hin. rewrite authorizedFetch_issued in Hin.
    destruct (truthy (store w)); [|contradiction].
    destruct Hin as [<-|[]]. repeat split.
  - intros options c Hin. rewrite requestSignal_issued in *.
    destruct (paymentClient this) as [pc|]; [|contradiction].
    destruct (truthy (store w)); [|contradiction].
    destruct Hin as [<-|[]]. repeat split.
Qed.

(** X5: a dead token is not reused.  After a [getHistory] or [requestSignal]
    call whose transport answered 401, the next [getHistory] (and the next
    [requestSignal], payment client configured) fails with the unauthenticated
    error and makes no request. *)
Theorem after_401_next_call_is_offline :
  forall (this : LimenClient E) (w : World E) (c : NetCall) (res : ResponseLike),
    answer c = Returns res ->
    status res = 401%Z ->
    (forall options,
        In c (issued w (snd (getHistory this options w))) ->
        let w' := snd (getHistory this options w) in
        (forall next, failsOffline (getHistory this next w') w' unauthenticated)
        /\ (forall pc next, paymentClient this = Some pc ->
              failsOffline (requestSignal this next w') w' unauthenticated))
    /\ (forall options,
        In c (issued w (snd (requestSignal this options w))) ->
        let w' := snd (requestSignal this options w) in
        (forall next, failsOffline (getHistory this next w') w' unauthenticated)
        /\ (forall pc next, paymentClient this = Some pc ->
              failsOffline (requestSignal this next w') w' unauthenticated)).
Proof.
  intros this w c res Hc H401.
  assert (Hoff : forall w' : World E, store w' = JNull ->
            (forall next, failsOffline (getHistory this next w') w' unauthenticated)
            /\ (forall pc next, paymentClient this = Some pc ->
                  failsOffline (requestSignal this next w') w' unauthenticated)).
  { intros w' Hs. assert (Hf : truthy (store w') = false) by (rewrite Hs; reflexivity).
    split; intros; apply failsOffline_intro.
    - apply getHistory_falsy; exact Hf.
    - eapply requestSignal_falsy; eauto. }
  split; intros options Hin w'; apply Hoff; subst w'.
  - rewrite getHistory_issued in Hin.
    destruct (truthy (store w)) eqn:Ht; [|contradiction].
    destruct Hin as [<-|[]]. rewrite (getHistory_truthy_run this options w Ht). cbv zeta.
    rewrite Hc, (authorizedVerdict_401 res _ H401). reflexivity.
  - rewrite requestSignal_issued in Hin.
    destruct (paymentClient this) as [pc|] eqn:Hpc; [|contradiction].
    destruct (truthy (store w)) eqn:Ht; [|contradiction].
    destruct Hin as [<-|[]]. rewrite (requestSignal_truthy this pc options w Hpc Ht).
    cbv zeta. rewrite Hc. unfold signalVerdict. rewrite H401. reflexivity.
Qed.

Lemma strip_trailing_slash_app (s : string) : strip_trailing_slash (s ++ "/") = s.
Proof.
  induction s as [|a s IH]; [reflexivity|].
  cbn [append strip_trailing_slash]. rewrite IH.
  destruct s; reflexivity.
Qed.

Lemma strip_trailing_slash_none (s : string) :
  (forall t, s <> t ++ "/") -> strip_trailing_slash s = s.
Proof.
  induction s as [|a s IH]; intros H; [reflexivity|].
  cbn [strip_trailing_slash]. destruct s as [|b s].
  - cbn. destruct (Ascii.eqb_spec a "/") as [->|_]; [|reflexivity].
    exfalso. exact (H "" eq_refl).
  - cbn [String.eqb andb]. rewrite IH; [reflexivity|].
    intros t Ht. apply (H (String a t)). cbn [append]. rewrite <- Ht. reflexivity.
Qed.

(** X6: construction.  [new LimenClient(config)] fails exactly when neither
    [config.fetch] nor an ambient [fetch] exists; otherwise the client keeps
    the given transport in preference to the ambient one, the given payment
    client, and as base URL the configured one less a single trailing slash
    (unchanged when it has none; [https://api.limen.trade] when omitted). *)
Theorem constructor_normalises_config :
  forall (config : LimenClientConfig E),
    (cfg_fetch config = None -> defaultFetchFn = None ->
     exists e, new_LimenClient config = Throws e)
    /\ (forall f, cfg_fetch config = Some f \/
                   (cfg_fetch config = None /\ defaultFetchFn = Some f) ->
        exists client,
          new_LimenClient config = Returns client
          /\ fetchFn client = f
          /\ paymentClient client = cfg_paymentClient config
          /\ (forall b, cfg_baseUrl config = Some (b ++ "/") -> baseUrl client = b)
          /\ (forall b, cfg_baseUrl config = Some b -> (forall t, b <> t ++ "/") ->
                baseUrl client = b)
          /\ (cfg_baseUrl config = None -> baseUrl client = "https://api.limen.trade")).
Proof.
  intros config. split.
  - intros Hf Hd. unfold new_LimenClient, assertFetch. rewrite Hf, Hd. eexists. reflexivity.
  - intros f Hf.
    assert (Ha : assertFetch (cfg_fetch config) = Returns f).
    { unfold assertFetch. destruct Hf as [->|[-> ->]]; reflexivity. }
    unfold new_LimenClient. rewrite Ha. eexists. split; [reflexivity|].
    cbn [fetchFn paymentClient baseUrl]. split; [reflexivity|]. split; [reflexivity|].
    split; [|split].
    + intros b ->. apply strip_trailing_slash_app.
    + intros b -> Hb. apply strip_trailing_slash_none. exact Hb.
    + intros ->. reflexivity.
Qed.


(** X14: the body of a signal request.  It is the JSON text
    [{"ticker":<ticker>,"timeframe":<timeframe>,"metadata":<metadata>}] where a
    given [timeframe] is sent as given, the empty string included (only an
    omitted one becomes [1d]), and [metadata] is left out altogether when it is
    [undefined]. *)
Theorem signal_body_text :
  forall (this : LimenClient E) (options : SignalRequestOptions) (w : World E) (c : NetCall),
    In c (issued w (snd (requestSignal this options w))) ->
    body (init c)
    = Some ("{" ++ JSON_quote "ticker" ++ ":" ++ JSON_quote (ticker options) ++ ","
            ++ JSON_quote "timeframe" ++ ":"
            ++ JSON_quote (match timeframe options with Some t => t | None => "1d" end)
            ++ match JSON_stringify (metadata options) with
               | Some m => "," ++ JSON_quote "metadata" ++ ":" ++ m
               | None => ""
               end
            ++ "}").
Proof.
  intros this options w c Hin. rewrite requestSignal_issued in Hin.
  destruct (paymentClient this) as [pc|]; [|contradiction].
  destruct (truthy (store w)); [|contradiction].
  destruct Hin as [<-|[]]. unfold signalCall, signalRequest. cbn [init body].
  unfold JSON_stringify_object, signalBody. cbn [JSON_stringify flat_map].
  destruct (JSON_stringify (metadata options)) as [m|];
    cbn [join app]; rewrite !string_app_assoc; reflexivity.
Qed.


End MoreClientFacts.


(** * Further properties of authentication *)

Section MoreAuthFacts.

Context {E : Type} {ambient : Ambient E} {bs58 : Bs58} {nacl : Nacl}.

Ltac tidy_calls :=
  cbn [store env trace fst snd];
  repeat rewrite <- app_assoc;
  rewrite ?issued_more, ?issued_same, ?issued_self;
  cbn [app].

Ltac close_shape := intros [= <- <-]; cbn [fst snd]; tidy_calls; repeat split; reflexivity.

(** The whole run of [authenticateWithWallet], step by step. *)
Lemma authenticateWithWallet_shape (options : WalletAuthOptions E) (w : World E) :
  let run := authenticateWithWallet options w in
  let b := wa_baseUrl options in
  let addr := address (wa_wallet options) in
  store (snd run) = store w
  /\ match assertFetch (wa_fetch options) with
     | Throws e => fst run = Throws e /\ issued w (snd run) = []
     | Returns f =>
         let ans := f (b ++ "/api/auth/challenge") challengeRequest (env w) in
         let g := challengeCall b (fst ans) in
         match challengeVerdict (fst ans) with
         | Throws e => fst run = Throws e /\ issued w (snd run) = [g]
         | Returns ch =>
             match destructureChallenge ch with
             | Throws e => fst run = Throws e /\ issued w (snd run) = [g]
             | Returns (challenge, ct) =>
                 let signed :=
                   signMessage (wa_wallet options) (TextEncoder_encode challenge) (snd ans) in
                 match fst signed with
                 | Throws e => fst run = Throws e /\ issued w (snd run) = [g]
                 | Returns sig =>
                     let ans2 :=
                       f (b ++ "/api/auth") (exchangeRequest addr (bs58_encode sig) ct)
                         (snd signed) in
                     fst run = sessionOf addr (fst ans2)
                     /\ issued w (snd run)
                        = [g; exchangeCall b addr (bs58_encode sig) ct (fst ans2)]
                 end
             end
         end
     end.
Proof.
  intros run b addr. subst run b addr.
  destruct (authenticateWithWallet options w) as [out w'] eqn:Hrun.
  cbn [fst snd]. revert Hrun.
  unfold authenticateWithWallet, bind. cbv beta zeta. unfold settle at 1.
  destruct (assertFetch (wa_fetch options)) as [f|e]; [|close_shape].
  rewrite fetchChallenge_run. cbv zeta. unfold challengeCall.
  destruct (challengeVerdict _) as [ch|e]; [|close_shape].
  unfold settle at 1. destruct (destructureChallenge ch) as [[challenge ct]|e];
    [|close_shape].
  unfold outside at 1. cbn [env store trace].
  destruct (signMessage (wa_wallet options) (TextEncoder_encode challenge) _)
    as [[sig|e] e2]; [|close_shape].
  rewrite exchange_run. cbv zeta. cbn [env store trace fst snd].
  unfold exchangeCall, sessionOf.
  match goal with |- context [fst (f ?u ?r e2)] =>
    destruct (f u r e2) as [o e3] end.
  cbn [fst snd].
  destruct o as [res'|e]; [|close_shape].
  destruct (exchangeVerdict res'); unfold ret; close_shape.
Qed.

(** The whole run of [authenticateWithSecretKey], step by step. *)
Lemma authenticateWithSecretKey_shape (options : SecretKeyAuthOptions E) (w : World E) :
  let run := authenticateWithSecretKey options w in
  let b := sk_baseUrl options in
  store (snd run) = store w
  /\ match assertFetch (sk_fetch options) with
     | Throws e => fst run = Throws e /\ issued w (snd run) = []
     | Returns f =>
         match normalizeSecretKey (sk_secretKey options) with
         | Throws e => fst run = Throws e /\ issued w (snd run) = []
         | Returns key =>
             let ans := f (b ++ "/api/auth/challenge") challengeRequest (env w) in
             let g := challengeCall b (fst ans) in
             match challengeVerdict (fst ans) with
             | Throws e => fst run = Throws e /\ issued w (snd run) = [g]
             | Returns ch =>
                 match destructureChallenge ch with
                 | Throws e => fst run = Throws e /\ issued w (snd run) = [g]
                 | Returns (challenge, ct) =>
                     match nacl_sign_detached (TextEncoder_encode challenge)
                             (nk_secretKey key) with
                     | Throws e => fst run = Throws e /\ issued w (snd run) = [g]
                     | Returns signed =>
                         let ans2 :=
                           f (b ++ "/api/auth")
                             (exchangeRequest (nk_wallet key) (bs58_encode signed) ct)
                             (snd ans) in
                         fst run = sessionOf (nk_wallet key) (fst ans2)
                         /\ issued w (snd run)
                            = [g; exchangeCall b (nk_wallet key) (bs58_encode signed) ct
                                    (fst ans2)]
                     end
                 end
             end
         end
     end.
Proof.
  intros run b. subst run b.
  destruct (authenticateWithSecretKey options w) as [out w'] eqn:Hrun.
  cbn [fst snd]. revert Hrun.
  unfold authenticateWithSecretKey, bind. cbv beta zeta. unfold settle at 1.
  destruct (assertFetch (sk_fetch options)) as [f|e]; [|close_shape].
  unfold settle at 1.
  destruct (normalizeSecretKey (sk_secretKey options)) as [key|e]; [|close_shape].
  rewrite fetchChallenge_run. cbv zeta. unfold challengeCall.
  destruct (challengeVerdict _) as [ch|e]; [|close_shape].
  unfold settle at 1. destruct (destructureChallenge ch) as [[challenge ct]|e];
    [|close_shape].
  unfold settle at 1.
  destruct (nacl_sign_detached (TextEncoder_encode challenge) (nk_secretKey key))
    as [signed|e]; [|close_shape].
  rewrite exchange_run. cbv zeta. cbn [env store trace fst snd].
  unfold exchangeCall, sessionOf.
  match goal with |- context [fst (f ?u ?r ?e2)] =>
    destruct (f u r e2) as [o e3] end.
  cbn [fst snd].
  destruct o as [res'|e]; [|close_shape].
  destruct (exchangeVerdict res'); unfold ret; close_shape.
Qed.

Lemma challengeVerdict_returns (o : Outcome ResponseLike) (ch : JsValue) :
  challengeVerdict o = Returns ch ->
  exists res, o = Returns res /\ (status res < 400)%Z /\ jsonOf res = Returns ch.
Proof.
  unfold challengeVerdict. destruct o as [res|e]; [|discriminate].
  destruct (Z.geb_spec (status res) 400) as [_|Hlt].
  - destruct (text res); discriminate.
  - intros H. exists res. repeat split; [lia | exact H].
Qed.

Lemma challengeVerdict_refused (res : ResponseLike) (t : string) :
  (status res >= 400)%Z -> text res = Returns t ->
  challengeVerdict (Returns res)
  = Throws (ErrorObj ("Challenge fetch failed (" ++ String_number (status res) ++ "): " ++ t)).
Proof.
  intros Hge Ht. unfold challengeVerdict.
  destruct (Z.geb_spec (status res) 400); [|lia]. rewrite Ht. reflexivity.
Qed.

Lemma sessionOf_truthy (wallet : string) (o : Outcome ResponseLike) (s : Session) :
  sessionOf wallet o = Returns s -> truthy (token s) = true.
Proof.
  unfold sessionOf, exchangeVerdict. destruct o as [res|e]; [|discriminate].
  destruct (jsonOf res) as [body|e]; [|discriminate].
  destruct (status res >=? 400)%Z.
  - destruct (getProp body "error"); discriminate.
  - destruct (getProp body "token") as [t|e]; [|discriminate].
    destruct (truthy t) eqn:Ht; cbn [negb].
    + intros [= <-]. exact Ht.
    + destruct (getProp body "error"); discriminate.
Qed.

Lemma authenticateWithWallet_returns (options : WalletAuthOptions E) (w : World E)
    (s : Session) :
  fst (authenticateWithWallet options w) = Returns s -> truthy (token s) = true.
Proof.
  destruct (authenticateWithWallet_shape options w) as [_ H]. cbv zeta in H.
  destruct (assertFetch (wa_fetch options)) as [f|e];
    [|destruct H as [-> _]; discriminate].
  destruct (challengeVerdict _) as [ch|e]; [|destruct H as [-> _]; discriminate].
  destruct (destructureChallenge ch) as [[challenge ct]|e];
    [|destruct H as [-> _]; discriminate].
  destruct (fst (signMessage _ _ _)) as [sig|e]; [|destruct H as [-> _]; discriminate].
  destruct H as [-> _]. apply sessionOf_truthy.
Qed.

Lemma authenticateWithSecretKey_returns (options : SecretKeyAuthOptions E) (w : World E)
    (s : Session) :
  fst (authenticateWithSecretKey options w) = Returns s -> truthy (token s) = true.
Proof.
  destruct (authenticateWithSecretKey_shape options w) as [_ H]. cbv zeta in H.
  destruct (assertFetch (sk_fetch options)) as [f|e];
    [|destruct H as [-> _]; discriminate].
  destruct (normalizeSecretKey (sk_secretKey options)) as [key|e];
    [|destruct H as [-> _]; discriminate].
  destruct (challengeVerdict _) as [ch|e]; [|destruct H as [-> _]; discriminate].
  destruct (destructureChallenge ch) as [[challenge ct]|e];
    [|destruct H as [-> _]; discriminate].
  destruct (nacl_sign_detached _ _) as [signed|e]; [|destruct H as [-> _]; discriminate].
  destruct H as [-> _]. apply sessionOf_truthy.
Qed.

(** X8: logging in through the client.  When [client.authenticateWithWallet]
    or [client.authenticateWithSecretKey] returns a token, the store holds
    exactly that token, the token is truthy, and [requireToken] hands it out;
    when the call throws, the store is the one the call started with: a failed
    login does not disturb a session already stored. *)
Theorem login_stores_the_token :
  forall (this : LimenClient E) (w : World E),
    (forall wallet,
        let run := client_authenticateWithWallet this wallet w in
        (forall tok, fst run = Returns tok ->
            store (snd run) = tok /\ truthy tok = true
            /\ fst (requireToken this (snd run)) = Returns tok)
        /\ (forall e, fst run = Throws e -> store (snd run) = store w))
    /\ (forall secretKey,
        let run := client_authenticateWithSecretKey this secretKey w in
        (forall tok, fst run = Returns tok ->
            store (snd run) = tok /\ truthy tok = true
            /\ fst (requireToken this (snd run)) = Returns tok)
        /\ (forall e, fst run = Throws e -> store (snd run) = store w)).
Proof.
  intros this w. split.
  - intros wallet run. subst run. unfold client_authenticateWithWallet, bind.
    pose proof (authenticateWithWallet_shape
                  (mkWalletAuthOptions (baseUrl this) wallet (Some (fetchFn this))) w)
      as [Hst _].
    pose proof (authenticateWithWallet_returns
                  (mkWalletAuthOptions (baseUrl this) wallet (Some (fetchFn this))) w)
      as Htr.
    cbv zeta in Hst.
    destruct (authenticateWithWallet _ w) as [[s|e] w0]; cbn [fst snd] in *.
    + split; [|discriminate]. intros tok [= <-].
      pose proof (Htr s eq_refl) as Ht. split; [reflexivity|]. split; [exact Ht|].
      unfold setToken, store_setToken, ret. cbn [fst snd].
      rewrite requireToken_truthy; [reflexivity | exact Ht].
    + split; [discriminate|]. intros _ _. exact Hst.
  - intros secretKey run. subst run. unfold client_authenticateWithSecretKey, bind.
    pose proof (authenticateWithSecretKey_shape
                  (mkSecretKeyAuthOptions (baseUrl this) secretKey (Some (fetchFn this))) w)
      as [Hst _].
    pose proof (authenticateWithSecretKey_returns
                  (mkSecretKeyAuthOptions (baseUrl this) secretKey (Some (fetchFn this))) w)
      as Htr.
    cbv zeta in Hst.
    destruct (authenticateWithSecretKey _ w) as [[s|e] w0]; cbn [fst snd] in *.
    + split; [|discriminate]. intros tok [= <-].
      pose proof (Htr s eq_refl) as Ht. split; [reflexivity|]. split; [exact Ht|].
      unfold setToken, store_setToken, ret. cbn [fst snd].
      rewrite requireToken_truthy; [reflexivity | exact Ht].
    + split; [discriminate|]. intros _ _. exact Hst.
Qed.

(** X9: the calls of an authentication attempt.  Either path makes no call,
    or the GET of the challenge alone, or that GET, answered with a status
    below 400, followed by the POST of the exchange: the exchange is never
    attempted without a challenge.  A returned session always took both calls. *)
Theorem authentication_call_sequence :
  (forall (options : WalletAuthOptions E) (w : World E),
      authCalls (wa_baseUrl options) (issued w (snd (authenticateWithWallet options w)))
      /\ (forall s, fst (authenticateWithWallet options w) = Returns s ->
            length (issued w (snd (authenticateWithWallet options w))) = 2%nat))
  /\ (forall (options : SecretKeyAuthOptions E) (w : World E),
      authCalls (sk_baseUrl options) (issued w (snd (authenticateWithSecretKey options w)))
      /\ (forall s, fst (authenticateWithSecretKey options w) = Returns s ->
            length (issued w (snd (authenticateWithSecretKey options w))) = 2%nat)).
Proof.
  split; intros options w.
  - destruct (authenticateWithWallet_shape options w) as [_ H]. cbv zeta in H.
    unfold authCalls.
    destruct (assertFetch (wa_fetch options)) as [f|e];
      [|destruct H as [-> ->]; split; [left; reflexivity | discriminate]].
    destruct (challengeVerdict _) as [ch|e] eqn:Hv;
      [|destruct H as [-> ->]; split; [right; left; eexists; reflexivity | discriminate]].
    destruct (destructureChallenge ch) as [[challenge ct]|e];
      [|destruct H as [-> ->]; split; [right; left; eexists; reflexivity | discriminate]].
    destruct (fst (signMessage _ _ _)) as [sig|e];
      [|destruct H as [-> ->]; split; [right; left; eexists; reflexivity | discriminate]].
    destruct H as [_ ->]. split; [|reflexivity].
    destruct (challengeVerdict_returns _ _ Hv) as [res [Ho [Hlt _]]].
    right; right. exists res. do 4 eexists. split; [exact Hlt|]. rewrite Ho. reflexivity.
  - destruct (authenticateWithSecretKey_shape options w) as [_ H]. cbv zeta in H.
    unfold authCalls.
    destruct (assertFetch (sk_fetch options)) as [f|e];
      [|destruct H as [-> ->]; split; [left; reflexivity | discriminate]].
    destruct (normalizeSecretKey (sk_secretKey options)) as [key|e];
      [|destruct H as [-> ->]; split; [left; reflexivity | discriminate]].
    destruct (challengeVerdict _) as [ch|e] eqn:Hv;
      [|destruct H as [-> ->]; split; [right; left; eexists; reflexivity | discriminate]].
    destruct (destructureChallenge ch) as [[challenge ct]|e];
      [|destruct H as [-> ->]; split; [right; left; eexists; reflexivity | discriminate]].
    destruct (nacl_sign_detached _ _) as [signed|e];
      [|destruct H as [-> ->]; split; [right; left; eexists; reflexivity | discriminate]].
    destruct H as [_ ->]. split; [|reflexivity].
    destruct (challengeVerdict_returns _ _ Hv) as [res [Ho [Hlt _]]].
    right; right. exists res. do 4 eexists. split; [exact Hlt|]. rewrite Ho. reflexivity.
Qed.

Ltac refused_alone Hv Ha Hge Ht H :=
  destruct H as [_ ->]; intros [<-|[]]; unfold challengeCall in Ha; cbn [answer] in Ha; rewrite Ha in Hv;
  rewrite (challengeVerdict_refused _ _ Hge Ht) in Hv; discriminate Hv.

(** X10: a refused challenge ends the attempt.  In either path, when the GET
    of the challenge is answered with a status of 400 or more, the call fails
    with [Challenge fetch failed (<status>): <body text>] and the challenge
    request is the only call made: nothing is signed or posted. *)
Theorem refused_challenge_ends_authentication :
  forall (c : NetCall) (res : ResponseLike) (t : string),
    init c = challengeRequest ->
    answer c = Returns res ->
    (status res >= 400)%Z ->
    text res = Returns t ->
    let failure :=
      Throws (ErrorObj ("Challenge fetch failed (" ++ String_number (status res) ++ "): " ++ t))
    in
    (forall (options : WalletAuthOptions E) (w : World E),
        In c (issued w (snd (authenticateWithWallet options w))) ->
        fst (authenticateWithWallet options w) = failure
        /\ issued w (snd (authenticateWithWallet options w)) = [c])
    /\ (forall (options : SecretKeyAuthOptions E) (w : World E),
        In c (issued w (snd (authenticateWithSecretKey options w))) ->
        fst (authenticateWithSecretKey options w) = failure
        /\ issued w (snd (authenticateWithSecretKey options w)) = [c]).
Proof.
  intros c res t Hi Ha Hge Ht failure. subst failure. split; intros options w.
  - destruct (authenticateWithWallet_shape options w) as [_ H]. cbv zeta in H.
    destruct (assertFetch (wa_fetch options)) as [f|e];
      [|destruct H as [_ ->]; contradiction].
    destruct (challengeVerdict _) as [ch|e] eqn:Hv.
    + destruct (destructureChallenge ch) as [[challenge ct]|e];
        [|refused_alone Hv Ha Hge Ht H].
      destruct (fst (signMessage _ _ _)) as [sig|e]; [|refused_alone Hv Ha Hge Ht H].
      destruct H as [_ ->]. intros [<-|[<-|[]]].
      * unfold challengeCall in Ha; cbn [answer] in Ha. rewrite Ha in Hv.
        rewrite (challengeVerdict_refused _ _ Hge Ht) in Hv. discriminate Hv.
      * unfold exchangeCall, exchangeRequest, challengeRequest in Hi; cbn [init] in Hi;
        discriminate Hi.
    + destruct H as [-> ->]. intros [<-|[]]. unfold challengeCall in Ha; cbn [answer] in Ha. rewrite Ha in Hv.
      rewrite (challengeVerdict_refused _ _ Hge Ht) in Hv. injection Hv as <-.
      split; [reflexivity|]. unfold challengeCall. rewrite Ha. reflexivity.
  - destruct (authenticateWithSecretKey_shape options w) as [_ H]. cbv zeta in H.
    destruct (assertFetch (sk_fetch options)) as [f|e];
      [|destruct H as [_ ->]; contradiction].
    destruct (normalizeSecretKey (sk_secretKey options)) as [key|e];
      [|destruct H as [_ ->]; contradiction].
    destruct (challengeVerdict _) as [ch|e] eqn:Hv.
    + destruct (destructureChallenge ch) as [[challenge ct]|e];
        [|refused_alone Hv Ha Hge Ht H].
      destruct (nacl_sign_detached _ _) as [signed|e]; [|refused_alone Hv Ha Hge Ht H].
      destruct H as [_ ->]. intros [<-|[<-|[]]].
      * unfold challengeCall in Ha; cbn [answer] in Ha. rewrite Ha in Hv.
        rewrite (challengeVerdict_refused _ _ Hge Ht) in Hv. discriminate Hv.
      * unfold exchangeCall, exchangeRequest, challengeRequest in Hi; cbn [init] in Hi;
        discriminate Hi.
    + destruct H as [-> ->]. intros [<-|[]]. unfold challengeCall in Ha; cbn [answer] in Ha. rewrite Ha in Hv.
      rewrite (challengeVerdict_refused _ _ Hge Ht) in Hv. injection Hv as <-.
      split; [reflexivity|]. unfold challengeCall. rewrite Ha. reflexivity.
Qed.

Lemma jsonOf_object (res : ResponseLike) (fields : list (string * JsValue)) :
  json res = Returns (JObj fields) -> jsonOf res = Returns (JObj fields).
Proof. intros H. unfold jsonOf. rewrite H. reflexivity. Qed.

(** X11: what the exchange posts.  When the challenge was answered by a JSON
    object and the exchange is reached, its request is the POST of
    [{wallet, signature, challengeToken}] in which [challengeToken] is the
    object's own, unchanged, and [signature] is the base58 text of the
    signature over the UTF-8 bytes of the object's [challenge]: made by
    [nacl.sign.detached] with the normalised key in the secret-key path, by
    the wallet's [signMessage] in the wallet path. *)
Theorem exchange_returns_the_challenge :
  (forall (options : SecretKeyAuthOptions E) (w : World E) (g c : NetCall)
          (res : ResponseLike) (fields : list (string * JsValue)) (key : NormalizedKey),
      normalizeSecretKey (sk_secretKey options) = Returns key ->
      issued w (snd (authenticateWithSecretKey options w)) = [g; c] ->
      answer g = Returns res ->
      json res = Returns (JObj fields) ->
      exists signed,
        nacl_sign_detached (TextEncoder_encode (lookup "challenge" fields))
          (nk_secretKey key) = Returns signed
        /\ url c = sk_baseUrl options ++ "/api/auth"
        /\ init c = exchangeRequest (nk_wallet key) (bs58_encode signed)
                      (lookup "challengeToken" fields))
  /\ (forall (options : WalletAuthOptions E) (w : World E) (f : FetchLike E)
             (g c : NetCall) (res : ResponseLike) (fields : list (string * JsValue)),
      assertFetch (wa_fetch options) = Returns f ->
      issued w (snd (authenticateWithWallet options w)) = [g; c] ->
      answer g = Returns res ->
      json res = Returns (JObj fields) ->
      exists sig,
        fst (signMessage (wa_wallet options)
               (TextEncoder_encode (lookup "challenge" fields))
               (snd (f (wa_baseUrl options ++ "/api/auth/challenge") challengeRequest
                       (env w)))) = Returns sig
        /\ url c = wa_baseUrl options ++ "/api/auth"
        /\ init c = exchangeRequest (address (wa_wallet options)) (bs58_encode sig)
                      (lookup "challengeToken" fields)).
Proof.
  split.
  - intros options w g c res fields key Hk Hcalls Hg Hj.
    destruct (authenticateWithSecretKey_shape options w) as [_ H]. cbv zeta in H.
    rewrite Hk in H.
    destruct (assertFetch (sk_fetch options)) as [f|e];
      [|destruct H as [_ H]; rewrite H in Hcalls; discriminate].
    destruct (challengeVerdict _) as [ch|e] eqn:Hv;
      [|destruct H as [_ H]; rewrite H in Hcalls; discriminate].
    destruct (challengeVerdict_returns _ _ Hv) as [res' [Ho [_ Hch]]].
    destruct (destructureChallenge ch) as [[challenge ct]|e] eqn:Hd;
      [|destruct H as [_ H]; rewrite H in Hcalls; discriminate].
    destruct (nacl_sign_detached _ _) as [signed|e] eqn:Hs;
      [|destruct H as [_ H]; rewrite H in Hcalls; discriminate].
    destruct H as [_ H]. rewrite H in Hcalls. injection Hcalls as <- <-.
    unfold challengeCall in Hg. cbn [answer] in Hg. rewrite Hg in Ho.
    injection Ho as <-. rewrite (jsonOf_object res fields Hj) in Hch.
    injection Hch as <-. cbn in Hd. injection Hd as <- <-.
    exists signed. split; [exact Hs|]. split; reflexivity.
  - intros options w f g c res fields Hf Hcalls Hg Hj.
    destruct (authenticateWithWallet_shape options w) as [_ H]. cbv zeta in H.
    rewrite Hf in H.
    destruct (challengeVerdict _) as [ch|e] eqn:Hv;
      [|destruct H as [_ H]; rewrite H in Hcalls; discriminate].
    destruct (challengeVerdict_returns _ _ Hv) as [res' [Ho [_ Hch]]].
    destruct (destructureChallenge ch) as [[challenge ct]|e] eqn:Hd;
      [|destruct H as [_ H]; rewrite H in Hcalls; discriminate].
    destruct (fst (signMessage _ _ _)) as [sig|e] eqn:Hs;
      [|destruct H as [_ H]; rewrite H in Hcalls; discriminate].
    destruct H as [_ H]. rewrite H in Hcalls. injection Hcalls as <- <-.
    unfold challengeCall in Hg. cbn [answer] in Hg. rewrite Hg in Ho.
    injection Ho as <-. rewrite (jsonOf_object res fields Hj) in Hch.
    injection Hch as <-. cbn in Hd. injection Hd as <- <-.
    exists sig. split; [exact Hs|]. split; reflexivity.
Qed.

Lemma exchangeVerdict_token (res : ResponseLike) (fields : list (string * JsValue)) :
  (status res < 400)%Z -> json res = Returns (JObj fields) ->
  truthy (lookup "token" fields) = true ->
  exchangeVerdict res = Returns (lookup "token" fields).
Proof.
  intros Hlt Hj Ht. unfold exchangeVerdict. rewrite (jsonOf_object res fields Hj).
  destruct (Z.geb_spec (status res) 400); [lia|]. cbn [getProp]. rewrite Ht. reflexivity.
Qed.

(** X16: a granted exchange.  In either path, when the POST of the exchange
    is answered with a status below 400 and a JSON object holding a truthy
    [token], the call returns that token together with the wallet address
    that was posted. *)
Theorem granted_exchange_returns_session :
  forall (g c : NetCall) (res : ResponseLike) (fields : list (string * JsValue)),
    answer c = Returns res ->
    (status res < 400)%Z ->
    json res = Returns (JObj fields) ->
    truthy (lookup "token" fields) = true ->
    (forall (options : WalletAuthOptions E) (w : World E),
        issued w (snd (authenticateWithWallet options w)) = [g; c] ->
        fst (authenticateWithWallet options w)
        = Returns (mkSession (lookup "token" fields) (address (wa_wallet options))))
    /\ (forall (options : SecretKeyAuthOptions E) (w : World E) (key : NormalizedKey),
        normalizeSecretKey (sk_secretKey options) = Returns key ->
        issued w (snd (authenticateWithSecretKey options w)) = [g; c] ->
        fst (authenticateWithSecretKey options w)
        = Returns (mkSession (lookup "token" fields) (nk_wallet key))).
Proof.
  intros g c res fields Ha Hlt Hj Ht.
  pose proof (exchangeVerdict_token res fields Hlt Hj Ht) as Hv.
  split.
  - intros options w Hcalls.
    destruct (authenticateWithWallet_shape options w) as [_ H]. cbv zeta in H.
    destruct (assertFetch (wa_fetch options)) as [f|e];
      [|destruct H as [_ H]; rewrite H in Hcalls; discriminate].
    destruct (challengeVerdict _) as [ch|e];
      [|destruct H as [_ H]; rewrite H in Hcalls; discriminate].
    destruct (destructureChallenge ch) as [[challenge ct]|e];
      [|destruct H as [_ H]; rewrite H in Hcalls; discriminate].
    destruct (fst (signMessage _ _ _)) as [sig|e];
      [|destruct H as [_ H]; rewrite H in Hcalls; discriminate].
    destruct H as [-> H]. rewrite H in Hcalls. injection Hcalls as _ <-.
    unfold exchangeCall in Ha. cbn [answer] in Ha. rewrite Ha.
    unfold sessionOf. rewrite Hv. reflexivity.
  - intros options w key Hk Hcalls.
    destruct (authenticateWithSecretKey_shape options w) as [_ H]. cbv zeta in H.
    rewrite Hk in H.
    destruct (assertFetch (sk_fetch options)) as [f|e];
      [|destruct H as [_ H]; rewrite H in Hcalls; discriminate].
    destruct (challengeVerdict _) as [ch|e];
      [|destruct H as [_ H]; rewrite H in Hcalls; discriminate].
    destruct (destructureChallenge ch) as [[challenge ct]|e];
      [|destruct H as [_ H]; rewrite H in Hcalls; discriminate].
    destruct (nacl_sign_detached _ _) as [signed|e];
      [|destruct H as [_ H]; rewrite H in Hcalls; discriminate].
    destruct H as [-> H]. rewrite H in Hcalls. injection Hcalls as _ <-.
    unfold exchangeCall in Ha. cbn [answer] in Ha. rewrite Ha.
    unfold sessionOf. rewrite Hv. reflexivity.
Qed.

End MoreAuthFacts.

(** * Further properties of the payment module *)

Lemma take_base58_shape (n : nat) (s : string) :
  (String.length (take_base58 n s) <= n)%nat
  /\ all_chars is_base58_char (take_base58 n s) = true
  /\ starts_with (take_base58 n s) s = true.
Proof.
  revert s. induction n as [|n IH]; intros s.
  - destruct s; cbn; repeat split; lia.
  - destruct s as [|c s]; [cbn; repeat split; lia|].
    cbn [take_base58]. destruct (is_base58_char c) eqn:Hc; [|cbn; repeat split; lia].
    destruct (IH s) as [Hl [Ha Hp]]. cbn [String.length all_chars starts_with].
    rewrite Hc, Ha, Hp, Ascii.eqb_refl. repeat split. lia.
Qed.

Lemma strip_prefix_app (p s rest : string) :
  strip_prefix p s = Some rest -> s = p ++ rest.
Proof.
  revert s. induction p as [|a p IH]; intros s H.
  - injection H as ->. reflexivity.
  - destruct s as [|b s]; [discriminate|]. cbn [strip_prefix] in H.
    destruct (Ascii.eqb_spec a b) as [->|]; [|discriminate].
    cbn [append]. rewrite (IH s H). reflexivity.
Qed.

Lemma starts_with_app (p m rest : string) :
  starts_with m rest = true -> starts_with (p ++ m) (p ++ rest) = true.
Proof.
  intros H. induction p as [|a p IH]; [exact H|].
  cbn [append starts_with]. rewrite Ascii.eqb_refl, IH. reflexivity.
Qed.

Lemma starts_with_includes (sub s : string) :
  starts_with sub s = true -> includes sub s = true.
Proof. intros H. destruct s; cbn [includes]; rewrite H; reflexivity. Qed.

Lemma includes_tail (sub : string) (c : ascii) (s : string) :
  includes sub s = true -> includes sub (String c s) = true.
Proof. intros H. cbn [includes]. rewrite H. apply orb_true_r. Qed.

Lemma strip_prefix_starts_with (p s : string) :
  strip_prefix p s = None -> starts_with p s = false.
Proof.
  revert s. induction p as [|a p IH]; intros s H; [discriminate|].
  destruct s as [|b s]; [reflexivity|]. cbn [strip_prefix starts_with] in *.
  destruct (a =? b)%char; [|reflexivity]. cbn [andb]. apply IH. exact H.
Qed.

(** X12: what the pattern captures.  When the message of a payment error
    matches, the captured mint address is 32 to 44 characters long, all of the
    base58 alphabet, and stands in the message right after the words
    [Associated Token Account for ]; a message without those words never
    matches. *)
Theorem captured_mint_is_an_address :
  forall (message : string),
    (forall mint, mintMatch message = Some mint ->
        (32 <= String.length mint <= 44)%nat
        /\ all_chars is_base58_char mint = true
        /\ includes ("Associated Token Account for " ++ mint) message = true)
    /\ (includes "Associated Token Account for " message = false ->
        mintMatch message = None).
Proof.
  assert (Hhere : forall s mint, match_here s = Some mint ->
            (32 <= String.length mint <= 44)%nat
            /\ all_chars is_base58_char mint = true
            /\ starts_with ("Associated Token Account for " ++ mint) s = true).
  { intros s mint. unfold match_here.
    destruct (strip_prefix "Associated Token Account for " s) as [rest|] eqn:Hp;
      [|discriminate].
    destruct (take_base58_shape 44 rest) as [Hl [Ha Hs]].
    cbv zeta. remember (take_base58 44 rest) as m eqn:Hm.
    destruct (Nat.leb_spec 32 (String.length m)); [|discriminate].
    intros [= <-]. split; [lia|]. split; [exact Ha|].
    rewrite (strip_prefix_app _ _ _ Hp). apply starts_with_app. exact Hs. }
  intros message. split.
  - induction message as [|c message IH]; intros mint; cbn [mintMatch].
    + cbn. discriminate.
    + destruct (match_here (String c message)) eqn:Hm.
      * intros [= <-]. destruct (Hhere _ _ Hm) as [Hl [Ha Hs]].
        repeat split; try lia; auto. apply starts_with_includes. exact Hs.
      * intros H. destruct (IH mint H) as [Hl [Ha Hi]].
        repeat split; try lia; auto. apply includes_tail. exact Hi.
  - induction message as [|c message IH]; intros H.
    + reflexivity.
    + cbn [includes] in H. apply orb_false_iff in H. destruct H as [Hs Hi].
      cbn [mintMatch]. unfold match_here.
      destruct (strip_prefix "Associated Token Account for " (String c message)) eqn:Hp.
      * pose proof (strip_prefix_app _ _ _ Hp) as Heq.
        assert (Ht : starts_with "Associated Token Account for " (String c message) = true).
        { rewrite Heq.
          replace "Associated Token Account for "
            with ("Associated Token Account for " ++ "") at 1 by reflexivity.
          apply starts_with_app. reflexivity. }
        rewrite Ht in Hs. discriminate.
      * apply IH. exact Hi.
Qed.

Section MorePaymentFacts.

Context {C VT : Type} {web3 : Web3 C} {x402 : X402 C VT}.

(** X13: the wrapper is transparent when there is nothing to remediate.  If
    the wrapped fetch returns, its response is the result; if it throws an
    error whose message does not match the pattern, that very error is
    rethrown.  In both cases the wrapped fetch ran once, no remediation took
    place, and the chain is as that one fetch left it. *)
Theorem keypair_client_is_transparent :
  forall (options : KeypairPaymentClientOptions) (input : string) (init : RequestLike)
         (w : PayWorld C),
    let first := pay_fetch (baseClientOf options) input init (chain w) in
    let run := pay_fetch (createKeypairPaymentClient options) input init w in
    (forall res, fst first = Returns res ->
        fst run = Returns res
        /\ happened w (snd run) = [BaseFetch input init (Returns res)]
        /\ chain (snd run) = snd first)
    /\ (forall err, fst first = Throws err -> mintMatch (errorMessage err) = None ->
        fst run = Throws err
        /\ happened w (snd run) = [BaseFetch input init (Throws err)]
        /\ chain (snd run) = snd first).
Proof.
  intros options input init w first run. subst first run.
  rewrite keypair_fetch_run. cbv zeta.
  rewrite (baseFetch_world (baseClientOf options) input init w). cbn [fst snd].
  split.
  - intros res ->. cbn [fst snd chain]. rewrite happened_more. repeat split.
  - intros err -> ->. cbn [fst snd chain]. rewrite happened_more. repeat split.
Qed.

End MorePaymentFacts.

(** * Worked instances of the further properties *)

Lemma token_kept_unless_401_witness :
  status unavailable <> 401%Z
  /\ store (snd (getHistory (clientOn unavailable) sampleHistoryOptions
                   (worldWith (JStr "jwt")))) = JStr "jwt"
  /\ store (snd (requestSignal (clientOn unavailable) sampleSignalOptions
                   (worldWith (JStr "jwt")))) = JStr "jwt".
Proof.
  destruct (token_kept_unless_401 (clientOn unavailable) (worldWith (JStr "jwt")))
    as [Hh Hs].
  split; [discriminate|]. split.
  - apply (Hh sampleHistoryOptions). intros c res [<-|[]] [= <-]. discriminate.
  - apply (Hs sampleSignalOptions). intros c res [<-|[]] [= <-]. discriminate.
Defined.

Lemma getHistory_failures_witness :
  In (sampleHistoryCall unavailable)
    (issued (worldWith (JStr "jwt"))
       (snd (getHistory (clientOn unavailable) sampleHistoryOptions (worldWith (JStr "jwt")))))
  /\ fst (getHistory (clientOn unavailable) sampleHistoryOptions (worldWith (JStr "jwt")))
     = Throws (ErrorObj "Request failed (503): Service Unavailable").
Proof.
  assert (Hin : In (sampleHistoryCall unavailable)
                  (issued (worldWith (JStr "jwt"))
                     (snd (getHistory (clientOn unavailable) sampleHistoryOptions
                             (worldWith (JStr "jwt"))))))
    by (left; reflexivity).
  split; [exact Hin|].
  destruct (getHistory_failures (clientOn unavailable) sampleHistoryOptions
              (worldWith (JStr "jwt")) (sampleHistoryCall unavailable) Hin)
    as [_ [Hge _]].
  apply (Hge unavailable "Service Unavailable" eq_refl); [discriminate | discriminate |].
  reflexivity.
Defined.

Lemma requestSignal_outcomes_witness :
  In (sampleSignalCall needsPayment)
    (issued (worldWith (JStr "jwt"))
       (snd (requestSignal (clientOn needsPayment) sampleSignalOptions
               (worldWith (JStr "jwt")))))
  /\ fst (requestSignal (clientOn needsPayment) sampleSignalOptions (worldWith (JStr "jwt")))
     = Throws paymentRequired
  /\ failsOffline
       (requestSignal (loginClient granted) sampleSignalOptions (worldWith (JStr "jwt")))
       (worldWith (JStr "jwt")) noPaymentClient.
Proof.
  assert (Hin : In (sampleSignalCall needsPayment)
                  (issued (worldWith (JStr "jwt"))
                     (snd (requestSignal (clientOn needsPayment) sampleSignalOptions
                             (worldWith (JStr "jwt"))))))
    by (left; reflexivity).
  split; [exact Hin|]. split.
  - destruct (proj2 (requestSignal_outcomes (clientOn needsPayment) sampleSignalOptions
                       (worldWith (JStr "jwt"))) (sampleSignalCall needsPayment) Hin)
      as [_ [H402 _]].
    apply (H402 needsPayment); reflexivity.
  - apply (proj1 (requestSignal_outcomes (loginClient granted) sampleSignalOptions
                    (worldWith (JStr "jwt")))).
    reflexivity.
Defined.

Lemma requests_carry_the_token_witness :
  In (sampleSignalCall bareBody)
    (issued (worldWith (JStr "jwt"))
       (snd (requestSignal (clientOn bareBody) sampleSignalOptions (worldWith (JStr "jwt")))))
  /\ via (sampleSignalCall bareBody) = Paid
  /\ headers (init (sampleSignalCall bareBody))
     = Some [("Content-Type", "application/json"); ("Authorization", "Bearer jwt")].
Proof.
  assert (Hin : In (sampleSignalCall bareBody)
                  (issued (worldWith (JStr "jwt"))
                     (snd (requestSignal (clientOn bareBody) sampleSignalOptions
                             (worldWith (JStr "jwt"))))))
    by (left; reflexivity).
  split; [exact Hin|].
  destruct (proj2 (requests_carry_the_token (clientOn bareBody) (worldWith (JStr "jwt")))
              sampleSignalOptions (sampleSignalCall bareBody) Hin)
    as [_ [_ [Hv [_ Hh]]]].
  split; [exact Hv | exact Hh].
Defined.

Lemma after_401_next_call_is_offline_witness :
  (status expired = 401%Z
   /\ In (sampleHistoryCall expired)
        (issued (worldWith (JStr "jwt"))
           (snd (getHistory (clientOn expired) sampleHistoryOptions
                   (worldWith (JStr "jwt"))))))
  /\ failsOffline
       (getHistory (clientOn expired) sampleHistoryOptions
          (snd (getHistory (clientOn expired) sampleHistoryOptions (worldWith (JStr "jwt")))))
       (snd (getHistory (clientOn expired) sampleHistoryOptions (worldWith (JStr "jwt"))))
       unauthenticated.
Proof.
  assert (Hin : In (sampleHistoryCall expired)
                  (issued (worldWith (JStr "jwt"))
                     (snd (getHistory (clientOn expired) sampleHistoryOptions
                             (worldWith (JStr "jwt"))))))
    by (left; reflexivity).
  split; [split; [reflexivity | exact Hin]|].
  apply (proj1 (proj1 (after_401_next_call_is_offline (clientOn expired)
                         (worldWith (JStr "jwt")) (sampleHistoryCall expired) expired
                         eq_refl eq_refl)
                  sampleHistoryOptions Hin)).
Defined.

Lemma constructor_normalises_config_witness :
  exists client,
    new_LimenClient (ambient := noAmbientFetch) slashConfig = Returns client
    /\ baseUrl client = "https://staging.limen.trade".
Proof.
  destruct (proj2 (constructor_normalises_config (ambient := noAmbientFetch) slashConfig)
              (answering bareBody) (or_introl eq_refl))
    as [client [Hnew [_ [_ [Hslash _]]]]].
  exists client. split; [exact Hnew|].
  apply (Hslash "https://staging.limen.trade"). reflexivity.
Defined.


Lemma signal_body_text_witness :
  In (sampleSignalCall bareBody)
    (issued (worldWith (JStr "jwt"))
       (snd (requestSignal (clientOn bareBody) sampleSignalOptions (worldWith (JStr "jwt")))))
  /\ body (init (sampleSignalCall bareBody))
     = Some ("{" ++ JSON_quote "ticker" ++ ":" ++ JSON_quote "SOL" ++ ","
             ++ JSON_quote "timeframe" ++ ":" ++ JSON_quote "1d" ++ "}").
Proof.
  assert (Hin : In (sampleSignalCall bareBody)
                  (issued (worldWith (JStr "jwt"))
                     (snd (requestSignal (clientOn bareBody) sampleSignalOptions
                             (worldWith (JStr "jwt"))))))
    by (left; reflexivity).
  split; [exact Hin|].
  rewrite (signal_body_text (clientOn bareBody) sampleSignalOptions (worldWith (JStr "jwt"))
             (sampleSignalCall bareBody) Hin).
  reflexivity.
Defined.


Lemma login_stores_the_token_witness :
  fst (client_authenticateWithWallet (ambient := noAmbientFetch) (bs58 := plainBs58)
         (loginClient granted) echoWallet (worldWith JNull)) = Returns (JStr "jwt")
  /\ store (snd (client_authenticateWithWallet (ambient := noAmbientFetch)
                   (bs58 := plainBs58) (loginClient granted) echoWallet (worldWith JNull)))
     = JStr "jwt".
Proof.
  assert (Hr : fst (client_authenticateWithWallet (ambient := noAmbientFetch)
                      (bs58 := plainBs58) (loginClient granted) echoWallet
                      (worldWith JNull)) = Returns (JStr "jwt")) by reflexivity.
  split; [exact Hr|].
  destruct (proj1 (login_stores_the_token (ambient := noAmbientFetch) (bs58 := plainBs58)
                     (nacl := plainNacl) (loginClient granted) (worldWith JNull))
              echoWallet) as [Hok _].
  exact (proj1 (Hok (JStr "jwt") Hr)).
Defined.

Lemma authentication_call_sequence_witness :
  fst (walletRun granted)
  = Returns (mkSession (JStr "jwt") "9xQeWvG816bUx9EPjHmaT23yvVM2ZWbrrpZb9PusVFin")
  /\ length (issued (worldWith JNull) (snd (walletRun granted))) = 2%nat.
Proof.
  split; [reflexivity|].
  apply (proj2 (proj1 (authentication_call_sequence (ambient := noAmbientFetch)
                         (bs58 := plainBs58) (nacl := plainNacl))
                  (sampleWalletOptions granted) (worldWith JNull))
           (mkSession (JStr "jwt") "9xQeWvG816bUx9EPjHmaT23yvVM2ZWbrrpZb9PusVFin")).
  reflexivity.
Defined.

Lemma refused_challenge_ends_authentication_witness :
  (init (sampleChallengeCall (Returns unavailable)) = challengeRequest
   /\ (status unavailable >= 400)%Z
   /\ In (sampleChallengeCall (Returns unavailable))
        (issued (worldWith JNull) (snd refusedWalletRun)))
  /\ fst refusedWalletRun
     = Throws (ErrorObj "Challenge fetch failed (503): Service Unavailable")
  /\ issued (worldWith JNull) (snd refusedWalletRun)
     = [sampleChallengeCall (Returns unavailable)].
Proof.
  assert (Hge : (status unavailable >= 400)%Z) by discriminate.
  assert (Hin : In (sampleChallengeCall (Returns unavailable))
                  (issued (worldWith JNull) (snd refusedWalletRun)))
    by (left; reflexivity).
  split; [split; [reflexivity | split; [exact Hge | exact Hin]]|].
  apply (proj1 (refused_challenge_ends_authentication (ambient := noAmbientFetch)
                  (bs58 := plainBs58) (nacl := plainNacl)
                  (sampleChallengeCall (Returns unavailable)) unavailable
                  "Service Unavailable" eq_refl eq_refl Hge eq_refl)
           (mkWalletAuthOptions "https://api.limen.trade" echoWallet
              (Some (answering unavailable)))
           (worldWith JNull) Hin).
Defined.

Lemma exchange_returns_the_challenge_witness :
  issued (worldWith JNull) (snd (walletRun granted))
  = [sampleChallengeCall (Returns challengeAnswer); sampleExchangeCall granted]
  /\ init (sampleExchangeCall granted)
     = exchangeRequest "9xQeWvG816bUx9EPjHmaT23yvVM2ZWbrrpZb9PusVFin" "sign me" (JStr "c-1").
Proof.
  assert (Hcalls : issued (worldWith JNull) (snd (walletRun granted))
                   = [sampleChallengeCall (Returns challengeAnswer);
                      sampleExchangeCall granted]) by reflexivity.
  split; [exact Hcalls|].
  destruct (proj2 (exchange_returns_the_challenge (ambient := noAmbientFetch)
                     (bs58 := plainBs58) (nacl := plainNacl))
              (sampleWalletOptions granted) (worldWith JNull) (authServer granted)
              (sampleChallengeCall (Returns challengeAnswer)) (sampleExchangeCall granted)
              challengeAnswer
              [("challenge", JStr "sign me"); ("challengeToken", JStr "c-1")]
              eq_refl Hcalls eq_refl eq_refl)
    as [sig [Hsig [_ Hinit]]].
  rewrite Hinit. injection Hsig as <-. reflexivity.
Defined.

Lemma granted_exchange_returns_session_witness :
  (issued (worldWith JNull) (snd (walletRun granted))
   = [sampleChallengeCall (Returns challengeAnswer); sampleExchangeCall granted]
   /\ (status granted < 400)%Z)
  /\ fst (walletRun granted)
     = Returns (mkSession (JStr "jwt") "9xQeWvG816bUx9EPjHmaT23yvVM2ZWbrrpZb9PusVFin").
Proof.
  assert (Hcalls : issued (worldWith JNull) (snd (walletRun granted))
                   = [sampleChallengeCall (Returns challengeAnswer);
                      sampleExchangeCall granted]) by reflexivity.
  assert (Hlt : (status granted < 400)%Z) by reflexivity.
  split; [split; [exact Hcalls | exact Hlt]|].
  apply (proj1 (granted_exchange_returns_session (ambient := noAmbientFetch)
                  (bs58 := plainBs58) (nacl := plainNacl)
                  (sampleChallengeCall (Returns challengeAnswer))
                  (sampleExchangeCall granted) granted [("token", JStr "jwt")]
                  eq_refl Hlt eq_refl eq_refl)
           (sampleWalletOptions granted) (worldWith JNull) Hcalls).
Defined.

Lemma captured_mint_is_an_address_witness :
  mintMatch (errorMessage missingAccount) = Some usdcMint
  /\ (32 <= String.length usdcMint <= 44)%nat
  /\ all_chars is_base58_char usdcMint = true.
Proof.
  assert (Hm : mintMatch (errorMessage missingAccount) = Some usdcMint) by reflexivity.
  split; [exact Hm|].
  destruct (proj1 (captured_mint_is_an_address (errorMessage missingAccount)) usdcMint Hm)
    as [Hlen [Hchars _]].
  split; [exact Hlen | exact Hchars].
Defined.

Lemma keypair_client_is_transparent_witness :
  fst (pay_fetch (baseClientOf (web3 := ledgerWeb3) (x402 := ledgerX402) payerOptions)
         signalUrl emptyRequest (chain healthy)) = Returns paid
  /\ fst (keypairFetch signalUrl emptyRequest healthy) = Returns paid
  /\ happened healthy (snd (keypairFetch signalUrl emptyRequest healthy))
     = [BaseFetch signalUrl emptyRequest (Returns paid)].
Proof.
  split; [reflexivity|].
  destruct (proj1 (keypair_client_is_transparent (web3 := ledgerWeb3) (x402 := ledgerX402)
                     payerOptions signalUrl emptyRequest healthy) paid eq_refl)
    as [Hout [Hev _]].
  split; [exact Hout | exact Hev].
Defined.
